(** * FileUploader: validation, batch admission and upload sequencing

    A shallow embedding of the [FileUploader] React component
    (handleFileChange, handleDrop, handleUpload and the XMLHttpRequest
    listeners it installs, handleRemoveFile, clearFiles) and of the
    preview component, followed by the properties of the design document
    that can be checked on it.

    Conventions of the embedding.
    - A browser [File] is a record of the three fields the component reads.
      Names and MIME types are strings of bytes, the UTF-8 encoding of the
      (well-formed) JavaScript strings: equal strings have equal
      encodings, and the byte of ['.'] never occurs inside the encoding of
      another character, so [split('.')] acts on the encoding as on the
      string.
    - What the component calls in the JavaScript engine and the browser
      and the repository does not contain is a parameter, the class
      [Host]: [String.prototype.toLowerCase] (the Unicode case tables) and
      whether [xhr.open] accepts a URL. The definitions and the general
      theorems hold for every host; the worked examples at the end of the
      file run on [sampleHost].
    - File sizes and the numeric limits are integers ([Z]); JavaScript adds
      them as doubles, which is exact below 2^53.
    - React state is an explicit record, [useState] setters are record
      updates, and callbacks handed in by the parent ([onFileSelected],
      [onValidationError], ...) are logged as a list of [Effect]s in the
      order in which the source invokes them.
    - Messages built from template literals are kept as a small syntax
      tree ([Message]), one constructor per template of the source, so
      that [formatBytes] (floating point) never has to be evaluated.
    - [handleFileChange] is an async function that can only suspend in its
      validation loop, at [await validateFile(file)]; the loop reads
      nothing but the props, and every state update and callback comes
      after it. One invocation is therefore [handleFileChange p captured
      selectedFiles st], where [captured] is the selection of the render
      whose handler was called and [st] is the state at the moment the
      loop has finished; the optional [validateFile] predicate is an
      oracle that answers true, answers false, or throws. [step], [run],
      [uiStep] and [uiRun] take each invocation as one step, with [st]
      also the state in which the event arrived: that is exact when no
      custom predicate is configured (the function then never suspends),
      and with a predicate as long as no other event is handled while it
      is awaited. [asyncStep] and [asyncRun] drop that assumption: an
      invocation that reaches the predicate is put aside with the
      selection it captured and resumes at any later moment.
    - Handlers are closures of the render that created them. The arrows
      passed to [onChange] and [onClick] are re-created by every render
      and so read the current state. [handleDrop] is wrapped in
      [useCallback] with the dependency list [[disabled]]: React keeps the
      function of the render in which [disabled] last changed, together
      with the [handleFileChange], [files] and [totalSize] of that render.
      The captured selection is the field [memoFiles] of the state.
    - [handleUpload] runs inside [try]/[catch]: [xhr.open] throws when the
      host says so, which sends control to the [catch] block; a request
      that was opened is taken to be sent ([xhr.send] does not throw).
    - Props other than [disabled] are fixed for a session.
    - [handleRemoveFile], [clearFiles] and the preview component are
      modelled after the selection and upload handlers, as a second layer
      of events ([UiEvent]) over the same state.
    - [dragActive], [formatBytes] (floating point) and the layout are left
      out; no property below speaks about them. *)

From Stdlib Require Import ZArith String Ascii List Bool Lia.
From stdpp Require Import gmap strings list fin_maps.
Import ListNotations.

Local Open Scope string_scope.
Local Open Scope list_scope.
Local Open Scope Z_scope.

(** ** Strings: [split('.')], [pop()], [includes()] *)

(** [name.split('.')]: never empty; an empty name gives one empty piece. *)
Fixpoint split_dot (s : string) : list string :=
  match s with
  | EmptyString => [EmptyString]
  | String c rest =>
      if Ascii.eqb c "."%char then EmptyString :: split_dot rest
      else match split_dot rest with
           | [] => [String c EmptyString]
           | piece :: pieces => String c piece :: pieces
           end
  end.

(** [Array.prototype.pop] read as a value: the last element, if any. *)
Definition pop (pieces : list string) : option string := List.last (map Some pieces) None.

(** [allowed.includes(x)] on an array of strings. *)
Definition includes (xs : list string) (x : string) : bool :=
  existsb (String.eqb x) xs.

(** ** The host *)

(** The two services of the JavaScript engine and of the browser that the
    component calls and whose code is not part of the repository.
    - [toLowerCase s] is [s.toLowerCase()], the lower-casing of the
      Unicode standard, on encoded strings.
    - [xhrOpens url] tells whether [xhr.open('POST', url)] returns; it
      throws when the URL cannot be parsed. *)
Class Host : Type := {
  toLowerCase : string -> string;
  xhrOpens : string -> bool
}.

(** Lower-casing of the letters A-Z, which is what [toLowerCase] does to a
    string of ASCII characters. *)
Definition lower_ascii (c : ascii) : ascii :=
  let n := nat_of_ascii c in
  if (Nat.leb 65 n && Nat.leb n 90)%bool then ascii_of_nat (n + 32) else c.

Fixpoint asciiLowerCase (s : string) : string :=
  match s with
  | EmptyString => EmptyString
  | String c rest => String (lower_ascii c) (asciiLowerCase rest)
  end.

(** The host of the worked examples, whose file names are ASCII and whose
    one URL that cannot be parsed is ['http://']. *)
Definition sampleHost : Host := {|
  toLowerCase := asciiLowerCase;
  xhrOpens := fun url => negb (String.eqb url "http://")
|}.

(** ** Files and props *)

Module File.
Record t : Type := mk { name : string; size : Z; type : string }.
End File.
Abbreviation File := File.t.

(** What awaiting [validateFile(file)] can do. *)
Inductive PredOutcome : Type := Truthy | Falsy | Throws.

Record FileUploaderProps : Type := {
  multiple : bool;
  maxFileSize : Z;
  maxTotalSize : Z;
  maxFiles : Z;
  allowedTypes : list string;
  allowedMimeTypes : list string;
  validateFile : option (File -> PredOutcome);
  uploadUrl : option string;
  autoUpload : bool
}.

(** The defaults of the destructured parameter list. *)
Definition defaultProps : FileUploaderProps := {|
  multiple := false;
  maxFileSize := 10 * 1024 * 1024;
  maxTotalSize := 50 * 1024 * 1024;
  maxFiles := 10;
  allowedTypes := [];
  allowedMimeTypes := [];
  validateFile := None;
  uploadUrl := None;
  autoUpload := false
|}.

(** ** Messages *)

(** One constructor per message template of the source.
    - [FileExceedsMaximumSize b]: `File exceeds maximum size of ${formatBytes(b)}`
    - [FileTypeNotAllowed w]: `File type ${w} not allowed`; the source uses
      this one template both for a refused extension (w = fileExtension)
      and for a refused MIME type (w = file.type)
    - [FileFailedCustomValidation]: 'File failed custom validation'
    - [ErrorValidatingFile]: 'Error validating file'
    - [MaximumFilesAllowed n]: `Maximum ${n} files allowed`
    - [TotalSizeExceedsMaximum b]: `Total size exceeds maximum of ${formatBytes(b)}`
    - [UploadFailedWithStatus s]: `Upload failed with status ${s}`
    - [NetworkErrorDuringUpload]: 'Network error during upload'
    - [OpenFailed url]: the message of the exception that [xhr.open] throws
      for [url], worded by the browser
    - [UploadSuccessful], [UploadFailed]: the two toast titles of handleUpload *)
Inductive Message : Type :=
  | FileExceedsMaximumSize (bytes : Z)
  | FileTypeNotAllowed (what : string)
  | FileFailedCustomValidation
  | ErrorValidatingFile
  | MaximumFilesAllowed (n : Z)
  | TotalSizeExceedsMaximum (bytes : Z)
  | UploadFailedWithStatus (status : Z)
  | NetworkErrorDuringUpload
  | OpenFailed (url : string)
  | UploadSuccessful
  | UploadFailed.

(** ** The preview of one selected file (FilePreview) *)

Module FilePreview.

(** [file.type.startsWith('image/')] and [file.type === 'application/pdf']. *)
Definition isImage (file : File) : bool := String.prefix "image/" (File.type file).

Definition isPdf (file : File) : bool := String.eqb (File.type file) "application/pdf".

(** The three [useState] cells, with their initial values. *)
Record PreviewState : Type := {
  preview : option string;
  loading : bool;
  error : bool
}.

Definition mounted : PreviewState := {| preview := None; loading := true; error := false |}.

(** The effect that runs when [file] changes. For an image it starts a
    [FileReader], whose [onload] and [onerror] come later as events. *)
Definition effect (file : File) (s : PreviewState) : PreviewState :=
  if isImage file then {| preview := preview s; loading := true; error := false |}
  else {| preview := preview s; loading := false; error := false |}.

(** [reader.onload], [reader.onerror] and the [onError] of the image. *)
Definition readerLoad (result : string) (s : PreviewState) : PreviewState :=
  {| preview := Some result; loading := false; error := error s |}.

Definition readerError (s : PreviewState) : PreviewState :=
  {| preview := preview s; loading := false; error := true |}.

Definition imgError (s : PreviewState) : PreviewState :=
  {| preview := preview s; loading := loading s; error := true |}.

(** What the preview section renders. *)
Inductive View : Type :=
  | Skeleton
  | ErrorText
  | Image (src : string)
  | PdfIcon
  | FileIcon.

Definition view (file : File) (s : PreviewState) : View :=
  if loading s then Skeleton
  else if error s then ErrorText
  else
    match (if isImage file then preview s else None) with
    | Some src =>
        if negb (String.eqb src "") then Image src
        else if isPdf file then PdfIcon else FileIcon
    | None => if isPdf file then PdfIcon else FileIcon
    end.

End FilePreview.

(** * The component, for any host *)

Section Component.

Context {host : Host}.

(** ** Per-file validation (the body of the for loop) *)

(** [`.${file.name.split('.').pop()?.toLowerCase()}`]; the optional chain
    yields [undefined] on an empty array, which the template prints. *)
Definition fileExtension (file : File) : string :=
  "." ++ match pop (split_dot (File.name file)) with
         | Some suffix => toLowerCase suffix
         | None => "undefined"
         end.

(** One iteration of the loop: [Some m] when the iteration ends by writing
    [newErrors[file.name] = m], [None] when it reaches [validFiles.push]. *)
Definition validate (p : FileUploaderProps) (file : File) : option Message :=
  if File.size file >? maxFileSize p then
    Some (FileExceedsMaximumSize (maxFileSize p))
  else if (Z.of_nat (length (allowedTypes p)) >? 0)
          && negb (includes (allowedTypes p) (fileExtension file)) then
    Some (FileTypeNotAllowed (fileExtension file))
  else if (Z.of_nat (length (allowedMimeTypes p)) >? 0)
          && negb (includes (allowedMimeTypes p) (File.type file)) then
    Some (FileTypeNotAllowed (File.type file))
  else
    match validateFile p with
    | Some predicate =>
        match predicate file with
        | Truthy => None
        | Falsy => Some FileFailedCustomValidation
        | Throws => Some ErrorValidatingFile
        end
    | None => None
    end.

(** [o[key] = v] on an object created by [{}]. Every key becomes an own
    property except ["__proto__"], which reaches the setter inherited
    from [Object.prototype]; that setter ignores a string value. *)
Definition storable (key : string) : bool := negb (String.eqb key "__proto__").

Definition setProperty (o : gmap string Message) (key : string) (v : Message)
    : gmap string Message :=
  if storable key then <[key := v]> o else o.

(** The loop over [fileArray], threading [newErrors] and [validFiles]. *)
Fixpoint validateEach (p : FileUploaderProps) (fileArray : list File)
    (newErrors : gmap string Message) (validFiles : list File)
    : gmap string Message * list File :=
  match fileArray with
  | [] => (newErrors, validFiles)
  | file :: rest =>
      match validate p file with
      | Some reason => validateEach p rest (setProperty newErrors (File.name file) reason) validFiles
      | None => validateEach p rest newErrors (validFiles ++ [file])
      end
  end.

(** ** Component state, effects and events *)

Inductive UploadStatus : Type := idle | uploading | success | error.

(** The value held by [uploadProgress] and passed to [onUploadProgress].
    [MathRound loaded total] stands for
    [Math.round((event.loaded / event.total) * 100)], which is IEEE-754
    double arithmetic and is kept unevaluated. *)
Inductive Percentage : Type :=
  | Zero
  | MathRound (loaded total : Z).

(** An [XMLHttpRequest] that has been sent and has fired neither [load]
    nor [error] yet, with the [filesToUpload] its listeners close over. *)
Record Xhr : Type := { xhrId : nat; filesToUpload : list File }.

Record State : Type := {
  files : list File;
  validationErrors : gmap string Message;
  uploadProgress : Percentage;
  isUploading : bool;
  uploadStatus : UploadStatus;
  (** the [disabled] prop of the latest render *)
  disabled : bool;
  (** [files] as seen by the memoised [handleDrop]: the value of the render
      in which its dependency list [[disabled]] last changed *)
  memoFiles : list File;
  (** requests in flight, oldest first, and the next fresh request id *)
  pending : list Xhr;
  nextXhr : nat
}.

Definition initialState (isDisabled : bool) : State := {|
  files := [];
  validationErrors := ∅;
  uploadProgress := Zero;
  isUploading := false;
  uploadStatus := idle;
  disabled := isDisabled;
  memoFiles := [];
  pending := [];
  nextXhr := 0
|}.

(** The argument of [new Error(...)] handed to [onValidationError]:
    one message, or [Object.values(newErrors).join(', ')], kept as the
    object whose values are joined. *)
Inductive ErrorText : Type :=
  | Text (m : Message)
  | JoinedValues (newErrors : gmap string Message).

(** What the component does to the outside, in source order. Toasts are
    recorded by title and variant. [XhrSend] is [xhr.open(method, url)]
    followed by [xhr.send(formData)], the form data being the list of
    appended (name, value) entries. *)
Inductive Effect : Type :=
  | Toast (title : Message) (destructive : bool)
  | OnValidationError (e : ErrorText)
  | OnFileSelected (selected : list File)
  | OnUploadProgress (percentage : Percentage)
  | OnUploadSuccess (uploaded : list File)
  | OnUploadError (m : Message)
  | XhrSend (id : nat) (method url : string) (formData : list (string * File)).

Inductive Event : Type :=
  (** [onChange] of the hidden input, with [e.target.files] *)
  | InputChange (selectedFiles : option (list File))
  (** [onDrop] of the upload area, with [e.dataTransfer.files] *)
  | Drop (dataTransferFiles : option (list File))
  (** click on the "Upload Files" button *)
  | ClickUpload
  (** the parent renders the component with this [disabled] prop *)
  | RenderDisabled (isDisabled : bool)
  (** events of the request with the given id *)
  | XhrProgress (id : nat) (lengthComputable : bool) (loaded total : Z)
  | XhrLoad (id : nat) (status : Z)
  | XhrError (id : nat).

(** ** State setters *)

Definition setFiles (v : list File) (st : State) : State :=
  {| files := v; validationErrors := validationErrors st;
     uploadProgress := uploadProgress st; isUploading := isUploading st;
     uploadStatus := uploadStatus st; disabled := disabled st;
     memoFiles := memoFiles st; pending := pending st; nextXhr := nextXhr st |}.

Definition setValidationErrors (v : gmap string Message) (st : State) : State :=
  {| files := files st; validationErrors := v;
     uploadProgress := uploadProgress st; isUploading := isUploading st;
     uploadStatus := uploadStatus st; disabled := disabled st;
     memoFiles := memoFiles st; pending := pending st; nextXhr := nextXhr st |}.

Definition setUploadProgress (v : Percentage) (st : State) : State :=
  {| files := files st; validationErrors := validationErrors st;
     uploadProgress := v; isUploading := isUploading st;
     uploadStatus := uploadStatus st; disabled := disabled st;
     memoFiles := memoFiles st; pending := pending st; nextXhr := nextXhr st |}.

Definition setIsUploading (v : bool) (st : State) : State :=
  {| files := files st; validationErrors := validationErrors st;
     uploadProgress := uploadProgress st; isUploading := v;
     uploadStatus := uploadStatus st; disabled := disabled st;
     memoFiles := memoFiles st; pending := pending st; nextXhr := nextXhr st |}.

Definition setUploadStatus (v : UploadStatus) (st : State) : State :=
  {| files := files st; validationErrors := validationErrors st;
     uploadProgress := uploadProgress st; isUploading := isUploading st;
     uploadStatus := v; disabled := disabled st;
     memoFiles := memoFiles st; pending := pending st; nextXhr := nextXhr st |}.

(** The functional forms [setFiles((prev) => ...)] and
    [setValidationErrors((prev) => ...)]. *)
Definition updateFiles (f : list File -> list File) (st : State) : State :=
  setFiles (f (files st)) st.

Definition updateValidationErrors
    (f : gmap string Message -> gmap string Message) (st : State) : State :=
  setValidationErrors (f (validationErrors st)) st.

(** [new XMLHttpRequest()] ... [xhr.send(formData)]: a fresh request in flight. *)
Definition sendXhr (toUpload : list File) (st : State) : State :=
  {| files := files st; validationErrors := validationErrors st;
     uploadProgress := uploadProgress st; isUploading := isUploading st;
     uploadStatus := uploadStatus st; disabled := disabled st;
     memoFiles := memoFiles st;
     pending := pending st ++ [{| xhrId := nextXhr st; filesToUpload := toUpload |}];
     nextXhr := S (nextXhr st) |}.

(** The request has fired [load] or [error]: no further event of it follows. *)
Definition settleXhr (id : nat) (st : State) : State :=
  {| files := files st; validationErrors := validationErrors st;
     uploadProgress := uploadProgress st; isUploading := isUploading st;
     uploadStatus := uploadStatus st; disabled := disabled st;
     memoFiles := memoFiles st;
     pending := List.filter (fun x => negb (Nat.eqb (xhrId x) id)) (pending st);
     nextXhr := nextXhr st |}.

(** A render with a [disabled] prop: [useCallback(..., [disabled])] keeps
    the previous [handleDrop] unless the dependency changed, in which case
    the new closure captures the [files] of this render. *)
Definition renderDisabled (isDisabled : bool) (st : State) : State :=
  if Bool.eqb isDisabled (disabled st) then st
  else
    {| files := files st; validationErrors := validationErrors st;
       uploadProgress := uploadProgress st; isUploading := isUploading st;
       uploadStatus := uploadStatus st; disabled := isDisabled;
       memoFiles := files st; pending := pending st; nextXhr := nextXhr st |}.

(** ** handleUpload and the listeners of its request *)

(** JavaScript truthiness of an optional string prop. *)
Definition truthy (o : option string) : bool :=
  match o with
  | Some s => negb (String.eqb s "")
  | None => false
  end.

(** [filesToUpload.forEach((file) => formData.append('files', file))] *)
Definition formDataOf (toUpload : list File) : list (string * File) :=
  map (fun file => ("files", file)) toUpload.

(** [handleUpload(filesToUpload)]. Inside the [try], building the form
    data and attaching the listeners cannot fail; [xhr.open] throws when
    the URL cannot be parsed, and control then passes to the [catch]
    block, before anything is sent. *)
Definition handleUpload (p : FileUploaderProps) (toUpload : list File) (st : State)
    : State * list Effect :=
  match uploadUrl p with
  | Some url =>
      if negb (truthy (Some url)) || (Z.of_nat (length toUpload) =? 0) then (st, [])
      else
        let st1 := setUploadProgress Zero (setUploadStatus uploading (setIsUploading true st)) in
        if xhrOpens url then
          (sendXhr toUpload st1, [XhrSend (nextXhr st1) "POST" url (formDataOf toUpload)])
        else
          (setIsUploading false (setUploadStatus error st1),
           [OnUploadError (OpenFailed url); Toast UploadFailed true])
  | None => (st, [])
  end.

Definition findXhr (id : nat) (st : State) : option Xhr :=
  List.find (fun x => Nat.eqb (xhrId x) id) (pending st).

(** The ['progress'] listener of [xhr.upload]. *)
Definition onProgress (id : nat) (lengthComputable : bool) (loaded total : Z) (st : State)
    : State * list Effect :=
  match findXhr id st with
  | Some _ =>
      if lengthComputable then
        let progress := MathRound loaded total in
        (setUploadProgress progress st, [OnUploadProgress progress])
      else (st, [])
  | None => (st, [])
  end.

(** The ['load'] listener, reading [xhr.status]. *)
Definition onLoad (id : nat) (status : Z) (st : State) : State * list Effect :=
  match findXhr id st with
  | Some x =>
      if (status >=? 200) && (status <? 300) then
        (settleXhr id (setIsUploading false (setUploadStatus success st)),
         [OnUploadSuccess (filesToUpload x); Toast UploadSuccessful false])
      else
        (settleXhr id (setIsUploading false (setUploadStatus error st)),
         [OnUploadError (UploadFailedWithStatus status); Toast UploadFailed true])
  | None => (st, [])
  end.

(** The ['error'] listener. *)
Definition onError (id : nat) (st : State) : State * list Effect :=
  match findXhr id st with
  | Some _ =>
      (settleXhr id (setIsUploading false (setUploadStatus error st)),
       [OnUploadError NetworkErrorDuringUpload; Toast UploadFailed true])
  | None => (st, [])
  end.

(** ** handleFileChange *)

(** [files.reduce((acc, file) => acc + file.size, 0)] *)
Definition totalSizeOf (fs : list File) : Z :=
  fold_left (fun acc file => acc + File.size file) fs 0.

(** [Object.keys(o)], in no particular order. *)
Definition Object_keys (o : gmap string Message) : list string :=
  (map_to_list o).*1.

(** One invocation of [handleFileChange(selectedFiles)], as created by one
    render. [files] is the selection captured by that render (from which
    [totalSize] is memoised). [st] is the React state at the moment the
    validation loop has finished: everything after the loop runs without
    suspending, the setters act on [st], and [setFiles((prev) => ...)]
    reads it. When the loop has awaited the custom predicate, [st] may
    differ from the state in which the event arrived. *)
Definition handleFileChange (p : FileUploaderProps) (files : list File)
    (selectedFiles : option (list File)) (st : State) : State * list Effect :=
  match selectedFiles with
  | None => (st, [])
  | Some fileArray =>
      let '(newErrors, validFiles) := validateEach p fileArray ∅ [] in
      let totalSize := totalSizeOf files in
      if multiple p then
        if Z.of_nat (length files) + Z.of_nat (length validFiles) >? maxFiles p then
          (st, [Toast (MaximumFilesAllowed (maxFiles p)) true;
                OnValidationError (Text (MaximumFilesAllowed (maxFiles p)))])
        else
          let newTotalSize := totalSize + totalSizeOf validFiles in
          if newTotalSize >? maxTotalSize p then
            (st, [Toast (TotalSizeExceedsMaximum (maxTotalSize p)) true;
                  OnValidationError (Text (TotalSizeExceedsMaximum (maxTotalSize p)))])
          else
            (* Multiple file mode - add to existing files *)
            let '(st1, out1) :=
              if Z.of_nat (length validFiles) >? 0 then
                let st' := updateFiles (fun prev => prev ++ validFiles) st in
                let '(st'', sent) :=
                  if autoUpload p && truthy (uploadUrl p)
                  then handleUpload p validFiles st' else (st', []) in
                (st'', OnFileSelected validFiles :: sent)
              else (st, []) in
            if Z.of_nat (length (Object_keys newErrors)) >? 0 then
              (updateValidationErrors (fun prev => newErrors ∪ prev) st1,
               out1 ++ [OnValidationError (JoinedValues newErrors)])
            else (st1, out1)
      else
        (* Single file mode - replace existing file *)
        let st0 := setFiles validFiles st in
        let '(st1, out1) :=
          if Z.of_nat (length validFiles) >? 0 then
            let '(st'', sent) :=
              if autoUpload p && truthy (uploadUrl p)
              then handleUpload p validFiles st0 else (st0, []) in
            (st'', OnFileSelected validFiles :: sent)
          else (st0, []) in
        if Z.of_nat (length (Object_keys newErrors)) >? 0 then
          (setValidationErrors newErrors st1,
           out1 ++ [OnValidationError (JoinedValues newErrors)])
        else (st1, out1)
  end.

(** ** Event handlers of the rendered tree *)

(** [onChange={(e) => handleFileChange(e.target.files)}], for an
    invocation that is not overtaken by another event: the arrow is
    created by the latest render, so it captures the selection current
    when the event arrives, and the state is still that one when the loop
    has finished. Invocations that wait for the custom predicate while
    other events are handled are those of [asyncStep] below. *)
Definition onInputChange (p : FileUploaderProps) (selectedFiles : option (list File))
    (st : State) : State * list Effect :=
  handleFileChange p (files st) selectedFiles st.

(** [handleDrop], memoised by [useCallback(..., [disabled])]: it calls the
    [handleFileChange] of the render that created it. As for
    [onInputChange], the invocation is taken not to be overtaken. *)
Definition handleDrop (p : FileUploaderProps) (dataTransferFiles : option (list File))
    (st : State) : State * list Effect :=
  if disabled st then (st, [])
  else
    match dataTransferFiles with
    | Some fileList => handleFileChange p (memoFiles st) (Some fileList) st
    | None => (st, [])
    end.

(** The "Upload Files" button: rendered when [files.length > 0] and
    [uploadUrl] is truthy, and disabled by its [disabled] attribute. *)
Definition uploadButtonEnabled (p : FileUploaderProps) (st : State) : bool :=
  let isOverMaxTotalSize := totalSizeOf (files st) >? maxTotalSize p in
  let isOverMaxFiles := Z.of_nat (length (files st)) >? maxFiles p in
  (Z.of_nat (length (files st)) >? 0) && truthy (uploadUrl p)
  && negb (isUploading st || disabled st || isOverMaxTotalSize || isOverMaxFiles
           || (Z.of_nat (length (files st)) =? 0)).

(** [onClick={() => handleUpload()}]: the default argument is [files]. *)
Definition onClickUpload (p : FileUploaderProps) (st : State) : State * list Effect :=
  if uploadButtonEnabled p st then handleUpload p (files st) st else (st, []).

(** One event handled to its end. *)
Definition step (p : FileUploaderProps) (st : State) (ev : Event) : State * list Effect :=
  match ev with
  | InputChange selectedFiles => onInputChange p selectedFiles st
  | Drop dataTransferFiles => handleDrop p dataTransferFiles st
  | ClickUpload => onClickUpload p st
  | RenderDisabled isDisabled => (renderDisabled isDisabled st, [])
  | XhrProgress id lengthComputable loaded total => onProgress id lengthComputable loaded total st
  | XhrLoad id status => onLoad id status st
  | XhrError id => onError id st
  end.

(** A session: the events in order, the effects concatenated. *)
Fixpoint run (p : FileUploaderProps) (st : State) (evs : list Event) : State * list Effect :=
  match evs with
  | [] => (st, [])
  | ev :: rest =>
      let '(st1, out1) := step p st ev in
      let '(st2, out2) := run p st1 rest in
      (st2, out1 ++ out2)
  end.

(** ** Vocabulary of the design document *)

(** The requests started by a list of effects. *)
Definition requestsOf (out : list Effect) : list Effect :=
  List.filter (fun e => match e with XhrSend _ _ _ _ => true | _ => false end) out.

(** A file is individually valid when its loop iteration reaches
    [validFiles.push(file)]. *)
Definition accepted (p : FileUploaderProps) (file : File) : bool :=
  match validate p file with
  | None => true
  | Some _ => false
  end.

Definition validFilesOf (p : FileUploaderProps) (batch : list File) : list File :=
  List.filter (accepted p) batch.

(** The reason a batch attaches to a file name: that of the last rejected
    file carrying the name (a later write to [newErrors[name]] overwrites
    an earlier one); none under the one name that is not stored. *)
Fixpoint rejectionOf (p : FileUploaderProps) (batch : list File) (name : string)
    : option Message :=
  match batch with
  | [] => None
  | file :: rest =>
      match rejectionOf p rest name with
      | Some reason => Some reason
      | None =>
          if String.eqb (File.name file) name && storable name
          then validate p file else None
      end
  end.

(** The four checks of the validator contract, as the design document
    words them; each answers [Some reason] when it fails. *)
Definition checkSize (p : FileUploaderProps) (file : File) : option Message :=
  if File.size file <=? maxFileSize p then None
  else Some (FileExceedsMaximumSize (maxFileSize p)).

Definition checkExtension (p : FileUploaderProps) (file : File) : option Message :=
  match allowedTypes p with
  | [] => None
  | _ :: _ =>
      if includes (allowedTypes p) (fileExtension file) then None
      else Some (FileTypeNotAllowed (fileExtension file))
  end.

Definition checkMimeType (p : FileUploaderProps) (file : File) : option Message :=
  match allowedMimeTypes p with
  | [] => None
  | _ :: _ =>
      if includes (allowedMimeTypes p) (File.type file) then None
      else Some (FileTypeNotAllowed (File.type file))
  end.

Definition checkCustom (p : FileUploaderProps) (file : File) : option Message :=
  match validateFile p with
  | None => None
  | Some predicate =>
      match predicate file with
      | Truthy => None
      | Falsy => Some FileFailedCustomValidation
      | Throws => Some ErrorValidatingFile
      end
  end.

(** Run the checks in order and stop at the first that fails. *)
Fixpoint firstFailure (checks : list (File -> option Message)) (file : File)
    : option Message :=
  match checks with
  | [] => None
  | check :: others =>
      match check file with
      | Some reason => Some reason
      | None => firstFailure others file
      end
  end.

Definition validate_in_order (p : FileUploaderProps) (file : File) : option Message :=
  firstFailure [checkSize p; checkExtension p; checkMimeType p; checkCustom p] file.

(** A string without ['.']. *)
Fixpoint dotFree (s : string) : bool :=
  match s with
  | EmptyString => true
  | String c rest => negb (Ascii.eqb c ".") && dotFree rest
  end.

(** Request ids in flight are older than the next fresh id. *)
Definition wfState (st : State) : Prop :=
  Forall (fun x => (xhrId x < nextXhr st)%nat) (pending st).

(** The limit errors of batch admission. *)
Definition isLimitError (e : Effect) : bool :=
  match e with
  | OnValidationError (Text (MaximumFilesAllowed _)) => true
  | OnValidationError (Text (TotalSizeExceedsMaximum _)) => true
  | _ => false
  end.

(** [p] with other aggregate limits. *)
Definition withLimits (p : FileUploaderProps) (newMaxFiles newMaxTotalSize : Z)
    : FileUploaderProps :=
  {| multiple := multiple p; maxFileSize := maxFileSize p;
     maxTotalSize := newMaxTotalSize; maxFiles := newMaxFiles;
     allowedTypes := allowedTypes p; allowedMimeTypes := allowedMimeTypes p;
     validateFile := validateFile p; uploadUrl := uploadUrl p;
     autoUpload := autoUpload p |}.

(** ** Sample configurations *)

(** The limits of the worked example of the design document. *)
Definition exampleLimits (isMultiple : bool) : FileUploaderProps := {|
  multiple := isMultiple;
  maxFileSize := 1000;
  maxTotalSize := 1500;
  maxFiles := 2;
  allowedTypes := [];
  allowedMimeTypes := [];
  validateFile := None;
  uploadUrl := Some "/api/upload";
  autoUpload := false
|}.

Definition fileA : File := File.mk "a.txt" 600 "text/plain".
Definition fileB : File := File.mk "b.txt" 600 "text/plain".
Definition fileC : File := File.mk "c.txt" 400 "text/plain".

(** Images only, at most 10 bytes each. *)
Definition imagesOnly : FileUploaderProps := {|
  multiple := true;
  maxFileSize := 10;
  maxTotalSize := 100;
  maxFiles := 1;
  allowedTypes := [".jpg"; ".png"];
  allowedMimeTypes := ["image/jpeg"; "image/png"];
  validateFile := None;
  uploadUrl := Some "/api/upload";
  autoUpload := false
|}.

Definition autoUploading : FileUploaderProps := {|
  multiple := true;
  maxFileSize := 1000;
  maxTotalSize := 5000;
  maxFiles := 5;
  allowedTypes := [];
  allowedMimeTypes := [];
  validateFile := None;
  uploadUrl := Some "/api/upload";
  autoUpload := true
|}.


(** The limits of the worked example, with a custom predicate that
    accepts every file. *)
Definition withCustomCheck : FileUploaderProps := {|
  multiple := true;
  maxFileSize := 1000;
  maxTotalSize := 1500;
  maxFiles := 2;
  allowedTypes := [];
  allowedMimeTypes := [];
  validateFile := Some (fun _ => Truthy);
  uploadUrl := Some "/api/upload";
  autoUpload := false
|}.

(** ** Removal and clearing *)

(** [prev.filter((file) => file !== fileToRemove)]. The comparison is
    object identity, which the records do not carry: [sameObject i] tells
    whether position [i] of the selection holds the very object being
    removed, and the positions for which it does are dropped. *)
Fixpoint filterOthers {A : Type} (sameObject : nat -> bool) (i : nat) (l : list A)
    : list A :=
  match l with
  | [] => []
  | x :: rest =>
      if sameObject i then filterOthers sameObject (S i) rest
      else x :: filterOthers sameObject (S i) rest
  end.

(** The callbacks of the whole component: those of the selection and
    upload handlers, and [onFileRemoved]. *)
Inductive UiEffect : Type :=
  | FromCore (e : Effect)
  | OnFileRemoved (file : File).

(** [handleRemoveFile(fileToRemove)]. The test [validationErrors[name]]
    succeeds when a reason is stored under the name (reasons are non-empty
    strings); it also succeeds through a property inherited from
    [Object.prototype], in which case the copy written back has the same
    entries as before. *)
Definition handleRemoveFile (fileToRemove : File) (sameObject : nat -> bool) (st : State)
    : State * list UiEffect :=
  let st1 := updateFiles (fun prev => filterOthers sameObject 0 prev) st in
  let st2 :=
    match validationErrors st !! File.name fileToRemove with
    | Some _ =>
        setValidationErrors (delete (File.name fileToRemove) (validationErrors st)) st1
    | None => st1
    end in
  (st2, [OnFileRemoved fileToRemove]).

(** [clearFiles()]; resetting the value of the file input leaves the
    React state alone. *)
Definition clearFiles (st : State) : State :=
  setUploadProgress Zero (setUploadStatus idle (setValidationErrors ∅ (setFiles [] st))).

(** The "Clear All" button sits in the block rendered when
    [files.length > 0] and carries its own [disabled] attribute. *)
Definition clearAllEnabled (st : State) : bool :=
  (Z.of_nat (length (files st)) >? 0)
  && negb (isUploading st || disabled st || (Z.of_nat (length (files st)) =? 0)).

Inductive UiEvent : Type :=
  | Core (ev : Event)
  (** click on the remove button of the preview at [index]; [confirmed] is
      the answer to the [confirm] dialog of the preview *)
  | ClickRemove (index : nat) (sameObject : nat -> bool) (confirmed : bool)
  | ClickClearAll.

(** The previews are rendered when [showPreview] is set and the selection
    is not empty; their remove buttons are disabled while uploading. *)
Definition onClickRemove (showPreview : bool) (index : nat) (sameObject : nat -> bool)
    (confirmed : bool) (st : State) : State * list UiEffect :=
  if showPreview && negb (isUploading st) && confirmed then
    match files st !! index with
    | Some fileToRemove => handleRemoveFile fileToRemove sameObject st
    | None => (st, [])
    end
  else (st, []).

Definition onClickClearAll (st : State) : State * list UiEffect :=
  if clearAllEnabled st then (clearFiles st, []) else (st, []).

Definition uiStep (p : FileUploaderProps) (showPreview : bool) (st : State) (ev : UiEvent)
    : State * list UiEffect :=
  match ev with
  | Core e => let '(st', out) := step p st e in (st', map FromCore out)
  | ClickRemove index sameObject confirmed =>
      onClickRemove showPreview index sameObject confirmed st
  | ClickClearAll => onClickClearAll st
  end.

Fixpoint uiRun (p : FileUploaderProps) (showPreview : bool) (st : State)
    (evs : list UiEvent) : State * list UiEffect :=
  match evs with
  | [] => (st, [])
  | ev :: rest =>
      let '(st1, out1) := uiStep p showPreview st ev in
      let '(st2, out2) := uiRun p showPreview st1 rest in
      (st2, out1 ++ out2)
  end.

(** ** Further vocabulary *)

(** [sameObject] describes the object at [index] of a selection: it holds
    at [index], and only at positions carrying the same file. *)
Definition aliasesOf (fs : list File) (index : nat) (sameObject : nat -> bool) : Prop :=
  sameObject index = true
  /\ forall j, sameObject j = true -> fs !! j = fs !! index.

(** The two aggregate limits, for a selection. *)
Definition withinLimits (p : FileUploaderProps) (fs : list File) : Prop :=
  Z.of_nat (length fs) <= maxFiles p /\ totalSizeOf fs <= maxTotalSize p.

(** The busy flag and the status say the same. *)
Definition flagsAgree (st : State) : Prop :=
  isUploading st = true <-> uploadStatus st = uploading.

(** [p] with another custom predicate. *)
Definition withPredicate (p : FileUploaderProps) (v : option (File -> PredOutcome))
    : FileUploaderProps :=
  {| multiple := multiple p; maxFileSize := maxFileSize p;
     maxTotalSize := maxTotalSize p; maxFiles := maxFiles p;
     allowedTypes := allowedTypes p; allowedMimeTypes := allowedMimeTypes p;
     validateFile := v; uploadUrl := uploadUrl p; autoUpload := autoUpload p |}.

(** The three built-in checks of the loop body. *)
Definition passesBuiltIn (p : FileUploaderProps) (file : File) : bool :=
  (File.size file <=? maxFileSize p)
  && (match allowedTypes p with
      | [] => true
      | _ :: _ => includes (allowedTypes p) (fileExtension file)
      end)
  && (match allowedMimeTypes p with
      | [] => true
      | _ :: _ => includes (allowedMimeTypes p) (File.type file)
      end).

Definition startsWithDot (s : string) : bool :=
  match s with
  | String c _ => Ascii.eqb c "."
  | EmptyString => false
  end.

(** Classes of events. *)
Definition isDrop (ev : UiEvent) : bool :=
  match ev with Core (Drop _) => true | _ => false end.

Definition isRenderDisabled (ev : UiEvent) : bool :=
  match ev with Core (RenderDisabled _) => true | _ => false end.

(** The files an event hands to the component. *)
Definition eventFiles (ev : UiEvent) : list File :=
  match ev with
  | Core (InputChange (Some fs)) => fs
  | Core (Drop (Some fs)) => fs
  | _ => []
  end.

(** Browser files have a size of at least 0. *)
Definition sizesNonNegative (fs : list File) : Prop :=
  Forall (fun file => 0 <= File.size file) fs.

(** The two steps shared by both modes of [handleFileChange], named for
    the proofs: the automatic upload of the valid files, and the tail
    made of the [onFileSelected] block and the block that publishes
    [newErrors] ([merge] telling whether the reasons are merged into the
    previous ones, as in multiple-file mode, or replace them). *)
Definition maybeUpload (p : FileUploaderProps) (valid : list File) (st0 : State)
    : State * list Effect :=
  if autoUpload p && truthy (uploadUrl p) then handleUpload p valid st0 else (st0, []).

Definition publish (p : FileUploaderProps) (merge : bool) (valid : list File)
    (newErrors : gmap string Message) (st0 : State) : State * list Effect :=
  let '(st1, out1) :=
    if Z.of_nat (length valid) >? 0 then
      let '(st'', sent) := maybeUpload p valid st0 in
      (st'', OnFileSelected valid :: sent)
    else (st0, []) in
  if Z.of_nat (length (Object_keys newErrors)) >? 0 then
    ((if merge then updateValidationErrors (fun prev => newErrors ∪ prev)
      else setValidationErrors newErrors) st1,
     out1 ++ [OnValidationError (JoinedValues newErrors)])
  else (st1, out1).

(** The busy flag implies a request in flight and agrees with the status. *)
Definition busyInv (st : State) : Prop :=
  flagsAgree st /\ (isUploading st = true -> pending st <> []).

(** The selection is within the limits and made of browser files. *)
Definition selectionInv (p : FileUploaderProps) (st : State) : Prop :=
  withinLimits p (files st) /\ sizesNonNegative (files st).

(** ** Selections that are still being validated *)

(** [handleFileChange] is an [async] function. Called for a batch, it runs
    within the event up to its first [await], which is
    [await validateFile(file)] for the first file that passes the three
    built-in checks; when there is no predicate, or no file reaches it, or
    the file list is null, it runs to its end within the event. *)
Definition suspends (p : FileUploaderProps) (fileArray : list File) : bool :=
  match validateFile p with
  | Some _ => existsb (passesBuiltIn p) fileArray
  | None => false
  end.

(** An invocation waiting in its loop: the selection its closure captured
    and the batch it validates. *)
Record Suspended : Type := {
  capturedFiles : list File;
  fileArray : list File
}.

(** What an arriving event leaves waiting, if anything: the change handler
    captures the selection of the current render, the drop handler the
    one remembered by [useCallback]. *)
Definition startsAwait (p : FileUploaderProps) (st : State) (ev : UiEvent)
    : option Suspended :=
  match ev with
  | Core (InputChange (Some batch)) =>
      if suspends p batch
      then Some {| capturedFiles := files st; fileArray := batch |} else None
  | Core (Drop (Some batch)) =>
      if negb (disabled st) && suspends p batch
      then Some {| capturedFiles := memoFiles st; fileArray := batch |} else None
  | _ => None
  end.

(** A session in which selections can overlap: an event arrives, or the
    [k]-th waiting invocation leaves its loop and runs the rest of
    [handleFileChange] on the state of that moment. *)
Inductive AsyncEvent : Type :=
  | Arrives (ev : UiEvent)
  | Resumes (k : nat).

Definition asyncStep (p : FileUploaderProps) (showPreview : bool)
    (now : State * list Suspended) (aev : AsyncEvent)
    : (State * list Suspended) * list UiEffect :=
  let '(st, awaiting) := now in
  match aev with
  | Arrives ev =>
      match startsAwait p st ev with
      | Some waiting => ((st, awaiting ++ [waiting]), [])
      | None =>
          let '(st', out) := uiStep p showPreview st ev in ((st', awaiting), out)
      end
  | Resumes k =>
      match awaiting !! k with
      | Some waiting =>
          let '(st', out) :=
            handleFileChange p (capturedFiles waiting) (Some (fileArray waiting)) st in
          ((st', delete k awaiting), map FromCore out)
      | None => (now, [])
      end
  end.

Fixpoint asyncRun (p : FileUploaderProps) (showPreview : bool)
    (now : State * list Suspended) (aevs : list AsyncEvent)
    : (State * list Suspended) * list UiEffect :=
  match aevs with
  | [] => (now, [])
  | aev :: rest =>
      let '(next, out1) := asyncStep p showPreview now aev in
      let '(final, out2) := asyncRun p showPreview next rest in
      (final, out1 ++ out2)
  end.

(** * Properties *)

(** ** Strings *)

Lemma split_dot_nonempty (s : string) : split_dot s <> [].
Proof.
  destruct s as [|c rest]; simpl; [discriminate|].
  destruct (Ascii.eqb c "."); [discriminate|].
  destruct (split_dot rest); discriminate.
Qed.

Lemma pop_is_Some (pieces : list string) : pieces <> [] -> exists s, pop pieces = Some s.
Proof.
  unfold pop. induction pieces as [|x xs IH]; [congruence|]. intros _.
  destruct xs as [|y ys]; [exists x; reflexivity|].
  destruct IH as [s Hs]; [discriminate|]. exists s. exact Hs.
Qed.

(** The optional chain of [fileExtension] never meets [undefined]. *)
Lemma fileExtension_defined (file : File) :
  exists suffix, pop (split_dot (File.name file)) = Some suffix
                 /\ fileExtension file = String "." (toLowerCase suffix).
Proof.
  destruct (pop_is_Some _ (split_dot_nonempty (File.name file))) as [s Hs].
  exists s. split; [exact Hs|]. unfold fileExtension. rewrite Hs. reflexivity.
Qed.

Example split_dot_ex : split_dot "a.tar.GZ" = ["a"; "tar"; "GZ"].
Proof. reflexivity. Qed.

Lemma split_dot_dotFree (s : string) : dotFree s = true -> split_dot s = [s].
Proof.
  induction s as [|c rest IH]; simpl; [reflexivity|].
  destruct (Ascii.eqb c "."); simpl; [discriminate|].
  intros H. rewrite (IH H). reflexivity.
Qed.

Lemma split_dot_last (pre suf : string) :
  dotFree suf = true ->
  exists front, split_dot (pre +:+ String "." suf) = front ++ [suf] /\ front <> [].
Proof.
  intros Hsuf. induction pre as [|c rest IH]; simpl.
  - exists [EmptyString]. rewrite (split_dot_dotFree _ Hsuf). split; [reflexivity|discriminate].
  - destruct IH as (front & Heq & Hne). rewrite Heq.
    destruct (Ascii.eqb c ".").
    + exists (EmptyString :: front). split; [reflexivity|discriminate].
    + destruct front as [|piece pieces]; [congruence|].
      exists (String c piece :: pieces). split; [reflexivity|discriminate].
Qed.

Lemma pop_snoc (front : list string) (s : string) : pop (front ++ [s]) = Some s.
Proof.
  unfold pop. rewrite map_app. simpl. apply last_last.
Qed.

(** What [fileExtension] computes: a dot followed by the lower-cased
    suffix after the last ['.'] of the name, and by the lower-cased whole
    name when the name has no ['.']. *)
Lemma fileExtension_suffix (pre suf : string) (bytes : Z) (mime : string) :
  dotFree suf = true ->
  fileExtension (File.mk (pre +:+ String "." suf) bytes mime) = String "." (toLowerCase suf).
Proof.
  intros Hsuf. unfold fileExtension. simpl File.name.
  destruct (split_dot_last pre suf Hsuf) as (front & -> & _).
  rewrite pop_snoc. reflexivity.
Qed.

Lemma fileExtension_no_dot (name : string) (bytes : Z) (mime : string) :
  dotFree name = true ->
  fileExtension (File.mk name bytes mime) = String "." (toLowerCase name).
Proof.
  intros Hname. unfold fileExtension. simpl File.name.
  rewrite (split_dot_dotFree _ Hname). reflexivity.
Qed.

(** ** The validator *)

Lemma nonempty_length {A : Type} (l : list A) :
  (Z.of_nat (length l) >? 0) = match l with [] => false | _ :: _ => true end.
Proof. destruct l; reflexivity. Qed.

Lemma validate_size_exceeded (p : FileUploaderProps) (file : File) :
  File.size file > maxFileSize p ->
  validate p file = Some (FileExceedsMaximumSize (maxFileSize p)).
Proof.
  intros H. unfold validate.
  destruct (Z.gtb_spec (File.size file) (maxFileSize p)); [reflexivity|lia].
Qed.

(** C5. Validation applies its checks in the fixed order size, extension
    (only when allowedTypes is non-empty), MIME type (only when
    allowedMimeTypes is non-empty), custom predicate, and stops at the
    first failing one: the loop body returns what running the four checks
    in that order and stopping at the first failure returns. Hence every
    file larger than maxFileSize is rejected with the size-exceeded
    reason, whatever its name, MIME type and the rest of the
    configuration. *)
Theorem validate_checks_in_order (p : FileUploaderProps) (file : File) :
  validate p file = validate_in_order p file
  /\ (File.size file > maxFileSize p ->
      validate p file = Some (FileExceedsMaximumSize (maxFileSize p))).
Proof.
  split; [|apply validate_size_exceeded].
  unfold validate, validate_in_order, firstFailure,
    checkSize, checkExtension, checkMimeType, checkCustom.
  rewrite !nonempty_length.
  destruct (Z.gtb_spec (File.size file) (maxFileSize p)) as [Hgt|Hle];
    destruct (Z.leb_spec (File.size file) (maxFileSize p)); try lia; [reflexivity|].
  destruct (allowedTypes p) as [|t ts];
    [|destruct (includes (t :: ts) (fileExtension file)); [|reflexivity]];
    simpl negb; simpl andb;
    (destruct (allowedMimeTypes p) as [|m ms];
     [|destruct (includes (m :: ms) (File.type file)); [|reflexivity]]);
    simpl negb; simpl andb;
    destruct (validateFile p) as [predicate|]; try reflexivity;
    destruct (predicate file); reflexivity.
Qed.

(** C6, amended. When allowedTypes is non-empty, every file that is not
    larger than maxFileSize and whose extension (a dot followed by the
    lower-cased suffix after the last '.' of its name) is not listed in
    allowedTypes is rejected with the type-not-allowed reason naming that
    extension, whatever its MIME type, allowedMimeTypes and the custom
    predicate. *)
Theorem extension_outside_allowedTypes_rejected (p : FileUploaderProps) (file : File) :
  allowedTypes p <> [] ->
  File.size file <= maxFileSize p ->
  includes (allowedTypes p) (fileExtension file) = false ->
  validate p file = Some (FileTypeNotAllowed (fileExtension file)).
Proof.
  intros Hne Hsize Hext. unfold validate. rewrite nonempty_length.
  destruct (Z.gtb_spec (File.size file) (maxFileSize p)); [lia|].
  destruct (allowedTypes p) as [|t ts]; [congruence|].
  rewrite Hext. reflexivity.
Qed.

(** ** The validation loop *)

Lemma validateEach_valid (p : FileUploaderProps) (fileArray : list File) :
  forall newErrors validFiles,
    snd (validateEach p fileArray newErrors validFiles)
    = validFiles ++ validFilesOf p fileArray.
Proof.
  induction fileArray as [|file rest IH]; intros newErrors validFiles; simpl.
  - rewrite app_nil_r. reflexivity.
  - unfold accepted. destruct (validate p file) as [reason|]; rewrite IH.
    + reflexivity.
    + rewrite <- app_assoc. reflexivity.
Qed.

Lemma validateEach_errors (p : FileUploaderProps) (fileArray : list File) (name : string) :
  forall (newErrors : gmap string Message) validFiles,
    fst (validateEach p fileArray newErrors validFiles) !! name
    = match rejectionOf p fileArray name with
      | Some reason => Some reason
      | None => newErrors !! name
      end.
Proof.
  induction fileArray as [|file rest IH]; intros newErrors validFiles; simpl.
  - reflexivity.
  - destruct (validate p file) as [reason|] eqn:Hv; rewrite IH;
      destruct (rejectionOf p rest name) as [later|]; try reflexivity.
    + unfold setProperty.
      destruct (String.eqb_spec (File.name file) name) as [->|Hne]; simpl.
      * destruct (storable name); [apply lookup_insert_eq|reflexivity].
      * destruct (storable (File.name file)); [|reflexivity].
        apply lookup_insert_ne. exact Hne.
    + destruct (String.eqb (File.name file) name && storable name); reflexivity.
Qed.

(** The loop always runs to the end of the batch: its two results are
    determined by the whole of [fileArray]. *)
Lemma validateEach_batch (p : FileUploaderProps) (fileArray : list File) :
  exists newErrors : gmap string Message,
    validateEach p fileArray ∅ [] = (newErrors, validFilesOf p fileArray)
    /\ forall name, newErrors !! name = rejectionOf p fileArray name.
Proof.
  exists (fst (validateEach p fileArray ∅ [])). split.
  - pose proof (validateEach_valid p fileArray ∅ []) as Hvalid.
    destruct (validateEach p fileArray ∅ []) as [errs valid].
    simpl in Hvalid. subst valid. reflexivity.
  - intros name. rewrite validateEach_errors, lookup_empty.
    destruct (rejectionOf p fileArray name); reflexivity.
Qed.

(** Every rejected file with a storable name leaves a reason under it. *)
Lemma rejectionOf_rejected (p : FileUploaderProps) (batch : list File) (file : File) :
  In file batch -> accepted p file = false -> storable (File.name file) = true ->
  exists reason, rejectionOf p batch (File.name file) = Some reason.
Proof.
  unfold accepted.
  induction batch as [|f rest IH]; intros Hin Hrej Hkey; [destruct Hin|].
  simpl. destruct Hin as [->|Hin].
  - destruct (rejectionOf p rest (File.name file)) as [later|]; [eauto|].
    rewrite String.eqb_refl, Hkey. simpl.
    destruct (validate p file) as [reason|]; [eauto|discriminate].
  - destruct (IH Hin Hrej Hkey) as [reason ->]. eauto.
Qed.

Lemma validate_withLimits (p : FileUploaderProps) (n t : Z) (file : File) :
  validate (withLimits p n t) file = validate p file.
Proof. reflexivity. Qed.

Lemma validateEach_withLimits (p : FileUploaderProps) (n t : Z) (fileArray : list File) :
  forall newErrors validFiles,
    validateEach (withLimits p n t) fileArray newErrors validFiles
    = validateEach p fileArray newErrors validFiles.
Proof.
  induction fileArray as [|file rest IH]; intros newErrors validFiles; simpl; [reflexivity|].
  rewrite validate_withLimits. destruct (validate p file); apply IH.
Qed.

(** ** Sizes *)

Lemma totalSizeOf_from (fs : list File) :
  forall acc, fold_left (fun a file => a + File.size file) fs acc = acc + totalSizeOf fs.
Proof.
  unfold totalSizeOf. induction fs as [|file rest IH]; intros acc; cbn [fold_left]; [lia|].
  rewrite (IH (acc + File.size file)), (IH (0 + File.size file)). lia.
Qed.

Lemma totalSizeOf_app (fs gs : list File) :
  totalSizeOf (fs ++ gs) = totalSizeOf fs + totalSizeOf gs.
Proof.
  unfold totalSizeOf at 1. rewrite fold_left_app, totalSizeOf_from.
  fold (totalSizeOf fs). lia.
Qed.

(** ** handleUpload leaves the selection alone *)

Lemma handleUpload_files (p : FileUploaderProps) (toUpload : list File) (st : State) :
  files (fst (handleUpload p toUpload st)) = files st
  /\ validationErrors (fst (handleUpload p toUpload st)) = validationErrors st.
Proof.
  unfold handleUpload. destruct (uploadUrl p) as [url|]; [|split; reflexivity].
  destruct (negb (truthy (Some url)) || (Z.of_nat (length toUpload) =? 0));
    [|destruct (xhrOpens url)]; split; reflexivity.
Qed.

Lemma handleUpload_withLimits (p : FileUploaderProps) (n t : Z) (toUpload : list File)
    (st : State) :
  handleUpload (withLimits p n t) toUpload st = handleUpload p toUpload st.
Proof. reflexivity. Qed.

(** The automatic upload after an admission touches neither the selection
    nor the recorded reasons, and raises no limit error. *)
Lemma maybe_upload_preserves (p : FileUploaderProps) (valid : list File) (st0 : State) :
  let r := if autoUpload p && truthy (uploadUrl p)
           then handleUpload p valid st0 else (st0, []) in
  files (fst r) = files st0
  /\ validationErrors (fst r) = validationErrors st0
  /\ existsb isLimitError (snd r) = false.
Proof.
  destruct (autoUpload p && truthy (uploadUrl p)); [|repeat split].
  destruct (handleUpload_files p valid st0) as [Hf Hv]. split; [exact Hf|].
  split; [exact Hv|]. unfold handleUpload. destruct (uploadUrl p) as [url|]; [|reflexivity].
  destruct (negb (truthy (Some url)) || (Z.of_nat (length valid) =? 0));
    [|destruct (xhrOpens url)]; reflexivity.
Qed.

(** ** Batch admission in multiple-file mode *)

Lemma Object_keys_empty (o : gmap string Message) :
  (Z.of_nat (length (Object_keys o)) >? 0) = false -> o = ∅.
Proof.
  unfold Object_keys. rewrite nonempty_length.
  destruct (map_to_list o) as [|kv kvs] eqn:Hlist; [|discriminate].
  intros _. apply map_to_list_empty_iff. exact Hlist.
Qed.

Ltac split_gtb :=
  match goal with
  | |- context [?a >? ?b] => destruct (Z.gtb_spec a b)
  end.

Lemma handleFileChange_over_maxFiles (p : FileUploaderProps) (captured batch : list File)
    (st : State) :
  multiple p = true ->
  Z.of_nat (length captured) + Z.of_nat (length (validFilesOf p batch)) > maxFiles p ->
  handleFileChange p captured (Some batch) st
  = (st, [Toast (MaximumFilesAllowed (maxFiles p)) true;
          OnValidationError (Text (MaximumFilesAllowed (maxFiles p)))]).
Proof.
  intros Hmulti Hcount. unfold handleFileChange.
  destruct (validateEach_batch p batch) as (errs & -> & _).
  rewrite Hmulti. split_gtb; [reflexivity|lia].
Qed.

Lemma handleFileChange_over_maxTotalSize (p : FileUploaderProps) (captured batch : list File)
    (st : State) :
  multiple p = true ->
  Z.of_nat (length captured) + Z.of_nat (length (validFilesOf p batch)) <= maxFiles p ->
  totalSizeOf captured + totalSizeOf (validFilesOf p batch) > maxTotalSize p ->
  handleFileChange p captured (Some batch) st
  = (st, [Toast (TotalSizeExceedsMaximum (maxTotalSize p)) true;
          OnValidationError (Text (TotalSizeExceedsMaximum (maxTotalSize p)))]).
Proof.
  intros Hmulti Hcount Hsize. unfold handleFileChange.
  destruct (validateEach_batch p batch) as (errs & -> & _).
  rewrite Hmulti. split_gtb; [lia|]. split_gtb; [reflexivity|lia].
Qed.

(** Within both limits, as seen through the captured selection, the valid
    files are appended to the live selection, no limit error is raised,
    and the reasons of the batch are merged into [validationErrors]. *)
Lemma handleFileChange_admitted (p : FileUploaderProps) (captured batch : list File)
    (st : State) :
  multiple p = true ->
  Z.of_nat (length captured) + Z.of_nat (length (validFilesOf p batch)) <= maxFiles p ->
  totalSizeOf captured + totalSizeOf (validFilesOf p batch) <= maxTotalSize p ->
  let r := handleFileChange p captured (Some batch) st in
  files (fst r) = files st ++ validFilesOf p batch
  /\ existsb isLimitError (snd r) = false
  /\ forall name,
       validationErrors (fst r) !! name
       = match rejectionOf p batch name with
         | Some reason => Some reason
         | None => validationErrors st !! name
         end.
Proof.
  intros Hmulti Hcount Hsize. unfold handleFileChange.
  destruct (validateEach_batch p batch) as (errs & -> & Herrs).
  rewrite Hmulti. split_gtb; [lia|]. split_gtb; [lia|].
  set (valid := validFilesOf p batch).
  pose proof (maybe_upload_preserves p valid) as Hup.
  specialize (Hup (updateFiles (fun prev => prev ++ valid) st)).
  destruct (if autoUpload p && truthy (uploadUrl p)
            then handleUpload p valid (updateFiles (fun prev => prev ++ valid) st)
            else (updateFiles (fun prev => prev ++ valid) st, [])) as [st'' sent].
  simpl in Hup. destruct Hup as (Hf & Hv & Hsent).
  destruct (Z.of_nat (length valid) >? 0) eqn:Hvalid.
  - destruct (Z.of_nat (length (Object_keys errs)) >? 0) eqn:Hkeys; simpl.
    + split; [exact Hf|]. split.
      * rewrite existsb_app, Hsent. reflexivity.
      * intros name. rewrite lookup_union, Herrs, Hv. simpl.
        destruct (rejectionOf p batch name), (validationErrors st !! name); reflexivity.
    + split; [exact Hf|]. split; [exact Hsent|].
      intros name. rewrite Hv. simpl.
      rewrite <- Herrs, (Object_keys_empty _ Hkeys), lookup_empty. reflexivity.
  - rewrite nonempty_length in Hvalid.
    destruct valid as [|v vs]; [|discriminate]. rewrite app_nil_r.
    destruct (Z.of_nat (length (Object_keys errs)) >? 0) eqn:Hkeys; simpl.
    + split; [reflexivity|]. split; [reflexivity|].
      intros name. rewrite lookup_union, Herrs.
      destruct (rejectionOf p batch name), (validationErrors st !! name); reflexivity.
    + split; [reflexivity|]. split; [reflexivity|].
      intros name. rewrite <- Herrs, (Object_keys_empty _ Hkeys), lookup_empty. reflexivity.
Qed.

(** On the change path of the file input the handler sees the current
    selection: a batch that would take the selection over maxFiles or
    over maxTotalSize is refused as a whole, the state is untouched, and
    the error names the limit (the count being tested first). *)
Lemma input_change_rejects_over_limit (p : FileUploaderProps) (batch : list File)
    (st : State) :
  multiple p = true ->
  Z.of_nat (length (files st ++ validFilesOf p batch)) > maxFiles p
  \/ totalSizeOf (files st ++ validFilesOf p batch) > maxTotalSize p ->
  exists limit,
    onInputChange p (Some batch) st
    = (st, [Toast limit true; OnValidationError (Text limit)])
    /\ (limit = MaximumFilesAllowed (maxFiles p)
         /\ Z.of_nat (length (files st ++ validFilesOf p batch)) > maxFiles p
        \/ limit = TotalSizeExceedsMaximum (maxTotalSize p)
           /\ totalSizeOf (files st ++ validFilesOf p batch) > maxTotalSize p).
Proof.
  intros Hmulti Hover. unfold onInputChange.
  rewrite length_app, Nat2Z.inj_add, totalSizeOf_app in *.
  destruct (Z_gt_le_dec
              (Z.of_nat (length (files st)) + Z.of_nat (length (validFilesOf p batch)))
              (maxFiles p)) as [Hcount|Hcount].
  - exists (MaximumFilesAllowed (maxFiles p)). split; [|left; split; [reflexivity|exact Hcount]].
    apply handleFileChange_over_maxFiles; assumption.
  - destruct Hover as [Hover|Hover]; [lia|].
    exists (TotalSizeExceedsMaximum (maxTotalSize p)).
    split; [|right; split; [reflexivity|exact Hover]].
    apply handleFileChange_over_maxTotalSize; assumption.
Qed.

(** ** Single-file mode *)

(** The selection becomes the valid files of the event, whatever it was
    and whatever the aggregate limits are; a non-empty set of reasons
    replaces [validationErrors]. *)
Lemma handleFileChange_single (p : FileUploaderProps) (captured batch : list File)
    (st : State) :
  multiple p = false ->
  let r := handleFileChange p captured (Some batch) st in
  files (fst r) = validFilesOf p batch
  /\ existsb isLimitError (snd r) = false
  /\ forall name reason,
       rejectionOf p batch name = Some reason ->
       validationErrors (fst r) !! name = Some reason.
Proof.
  intros Hsingle. unfold handleFileChange.
  destruct (validateEach_batch p batch) as (errs & -> & Herrs).
  rewrite Hsingle.
  set (valid := validFilesOf p batch).
  pose proof (maybe_upload_preserves p valid (setFiles valid st)) as Hup.
  destruct (if autoUpload p && truthy (uploadUrl p)
            then handleUpload p valid (setFiles valid st)
            else (setFiles valid st, [])) as [st'' sent].
  simpl in Hup. destruct Hup as (Hf & Hv & Hsent).
  assert (Hnone : (Z.of_nat (length (Object_keys errs)) >? 0) = false ->
                  forall name reason, rejectionOf p batch name = Some reason -> False).
  { intros Hkeys name reason Hrej.
    rewrite <- Herrs, (Object_keys_empty _ Hkeys), lookup_empty in Hrej. discriminate. }
  destruct (Z.of_nat (length valid) >? 0);
    destruct (Z.of_nat (length (Object_keys errs)) >? 0) eqn:Hkeys; simpl;
    (split; [first [exact Hf | reflexivity]|]);
    (split; [first [rewrite existsb_app, Hsent; reflexivity | exact Hsent | reflexivity]|]);
    intros name reason Hrej;
    first [rewrite Herrs; exact Hrej | destruct (Hnone eq_refl name reason Hrej)].
Qed.

Lemma handleFileChange_single_withLimits (p : FileUploaderProps) (n t : Z)
    (captured : list File) (selectedFiles : option (list File)) (st : State) :
  multiple p = false ->
  handleFileChange (withLimits p n t) captured selectedFiles st
  = handleFileChange p captured selectedFiles st.
Proof.
  intros Hsingle. unfold handleFileChange.
  destruct selectedFiles as [batch|]; [|reflexivity].
  rewrite validateEach_withLimits. cbn [multiple withLimits]. rewrite Hsingle.
  reflexivity.
Qed.

(** C2, amended. In multiple-file mode, an invocation of the selection
    handler during which the selection did not change (the selection its
    closure captured is the one it finds when validation has ended: always
    so on the change path of the file input when no other event is
    handled meanwhile) and which changes the selection leaves at most
    maxFiles files, of a total size of at most maxTotalSize. Single-file
    mode applies neither limit: the selection becomes the valid files of
    the event, and the outcome is the same under every value of maxFiles
    and maxTotalSize. *)
Theorem multiple_mode_add_respects_limits (p : FileUploaderProps)
    (captured : list File) (selectedFiles : option (list File)) (st : State) :
  let r := handleFileChange p captured selectedFiles st in
  (multiple p = true -> captured = files st -> files (fst r) <> files st ->
     Z.of_nat (length (files (fst r))) <= maxFiles p
     /\ totalSizeOf (files (fst r)) <= maxTotalSize p)
  /\ (multiple p = false ->
       files (fst r) = match selectedFiles with
                       | Some batch => validFilesOf p batch
                       | None => files st
                       end
       /\ forall n t, handleFileChange (withLimits p n t) captured selectedFiles st = r).
Proof.
  intros r. subst r. split.
  - intros Hmulti -> Hchanged.
    destruct selectedFiles as [batch|]; [|contradiction Hchanged; reflexivity].
    destruct (Z_gt_le_dec
                (Z.of_nat (length (files st)) + Z.of_nat (length (validFilesOf p batch)))
                (maxFiles p)) as [Hcount|Hcount].
    { rewrite (handleFileChange_over_maxFiles _ _ _ _ Hmulti Hcount) in Hchanged.
      contradiction Hchanged; reflexivity. }
    destruct (Z_gt_le_dec
                (totalSizeOf (files st) + totalSizeOf (validFilesOf p batch))
                (maxTotalSize p)) as [Hsize|Hsize].
    { rewrite (handleFileChange_over_maxTotalSize _ _ _ _ Hmulti Hcount Hsize) in Hchanged.
      contradiction Hchanged; reflexivity. }
    destruct (handleFileChange_admitted p (files st) batch st Hmulti Hcount Hsize)
      as (Hfiles & _ & _).
    rewrite Hfiles, length_app, Nat2Z.inj_add, totalSizeOf_app. split; assumption.
  - intros Hsingle. split.
    + destruct selectedFiles as [batch|]; [|reflexivity].
      exact (proj1 (handleFileChange_single p captured batch st Hsingle)).
    + intros n t. apply handleFileChange_single_withLimits. exact Hsingle.
Qed.

(** C3. In single-file mode, a selection event whose one valid file is
    [file] leaves exactly [[file]] as the selection, whatever the
    previous selection was; no limit error is raised, and the outcome
    does not depend on maxFiles and maxTotalSize at all. *)
Theorem single_mode_selection_replaced (p : FileUploaderProps)
    (captured batch : list File) (st : State) (file : File) :
  multiple p = false ->
  validFilesOf p batch = [file] ->
  let r := handleFileChange p captured (Some batch) st in
  files (fst r) = [file]
  /\ length (files (fst r)) = 1%nat
  /\ existsb isLimitError (snd r) = false
  /\ forall n t, handleFileChange (withLimits p n t) captured (Some batch) st = r.
Proof.
  intros Hsingle Hvalid r.
  destruct (handleFileChange_single p captured batch st Hsingle) as (Hfiles & Hlimit & _).
  fold r in Hfiles, Hlimit. rewrite Hvalid in Hfiles.
  split; [exact Hfiles|]. split; [rewrite Hfiles; reflexivity|].
  split; [exact Hlimit|].
  intros n t. apply handleFileChange_single_withLimits. exact Hsingle.
Qed.

(** C10. In single-file mode the selection after an event is the list of
    the event's valid files: when none is valid the previous selection
    is replaced by the empty one, and when several are valid all of them
    are selected. *)
Theorem single_mode_takes_all_valid_files (p : FileUploaderProps)
    (captured batch : list File) (st : State) :
  multiple p = false ->
  let st' := fst (handleFileChange p captured (Some batch) st) in
  files st' = validFilesOf p batch
  /\ (validFilesOf p batch = [] -> files st' = [])
  /\ length (files st') = length (validFilesOf p batch).
Proof.
  intros Hsingle st'.
  destruct (handleFileChange_single p captured batch st Hsingle) as (Hfiles & _ & _).
  fold st' in Hfiles. rewrite Hfiles. repeat split. intros ->. reflexivity.
Qed.

(** ** Reasons of a batch refused by a limit *)

(** Outside that early return the reasons do reach the caller: in
    multiple-file mode, when the captured selection plus the valid files
    stays within both limits, every rejected file of the batch whose
    name can be stored has a reason recorded under its name. *)
Lemma rejections_surfaced_when_admitted (p : FileUploaderProps)
    (captured batch : list File) (st : State) (file : File) :
  multiple p = true ->
  Z.of_nat (length captured) + Z.of_nat (length (validFilesOf p batch)) <= maxFiles p ->
  totalSizeOf captured + totalSizeOf (validFilesOf p batch) <= maxTotalSize p ->
  In file batch -> accepted p file = false -> storable (File.name file) = true ->
  exists reason,
    validationErrors (fst (handleFileChange p captured (Some batch) st)) !! File.name file
    = Some reason.
Proof.
  intros Hmulti Hcount Hsize Hin Hrej Hkey.
  destruct (handleFileChange_admitted p captured batch st Hmulti Hcount Hsize)
    as (_ & _ & Herrs).
  destruct (rejectionOf_rejected p batch file Hin Hrej Hkey) as [reason Hreason].
  exists reason. rewrite Herrs, Hreason. reflexivity.
Qed.

Lemma rejections_surfaced_single (p : FileUploaderProps)
    (captured batch : list File) (st : State) (file : File) :
  multiple p = false ->
  In file batch -> accepted p file = false -> storable (File.name file) = true ->
  exists reason,
    validationErrors (fst (handleFileChange p captured (Some batch) st)) !! File.name file
    = Some reason.
Proof.
  intros Hsingle Hin Hrej Hkey.
  destruct (handleFileChange_single p captured batch st Hsingle) as (_ & _ & Herrs).
  destruct (rejectionOf_rejected p batch file Hin Hrej Hkey) as [reason Hreason].
  exists reason. apply Herrs. exact Hreason.
Qed.

(** ** Requests in flight *)


Lemma handleUpload_wf (p : FileUploaderProps) (toUpload : list File) (st : State) :
  wfState st -> wfState (fst (handleUpload p toUpload st)).
Proof.
  unfold wfState, handleUpload. intros Hwf.
  destruct (uploadUrl p) as [url|]; [|exact Hwf].
  destruct (negb (truthy (Some url)) || (Z.of_nat (length toUpload) =? 0)); [exact Hwf|].
  destruct (xhrOpens url); [|exact Hwf].
  simpl. apply Forall_app. split.
  - eapply List.Forall_impl; [|exact Hwf]. simpl. intros x Hx. lia.
  - constructor; [simpl; lia|constructor].
Qed.

Lemma settleXhr_wf (id : nat) (st : State) : wfState st -> wfState (settleXhr id st).
Proof.
  unfold wfState. simpl. intros Hwf. rewrite List.Forall_forall in *.
  intros x Hx. apply filter_In in Hx. apply Hwf. apply Hx.
Qed.

Lemma handleFileChange_wf (p : FileUploaderProps) (captured : list File)
    (selectedFiles : option (list File)) (st : State) :
  wfState st -> wfState (fst (handleFileChange p captured selectedFiles st)).
Proof.
  intros Hwf. unfold handleFileChange.
  destruct selectedFiles as [batch|]; [|exact Hwf].
  destruct (validateEach p batch ∅ []) as [errs valid].
  assert (Hup : forall st0, wfState st0 ->
            wfState (fst (if autoUpload p && truthy (uploadUrl p)
                          then handleUpload p valid st0 else (st0, [])))).
  { intros st0 H0. destruct (autoUpload p && truthy (uploadUrl p)); [|exact H0].
    apply handleUpload_wf. exact H0. }
  destruct (multiple p).
  - repeat split_gtb; try exact Hwf.
    + specialize (Hup (updateFiles (fun prev => prev ++ valid) st) Hwf).
      destruct (if autoUpload p && truthy (uploadUrl p)
                then handleUpload p valid (updateFiles (fun prev => prev ++ valid) st)
                else (updateFiles (fun prev => prev ++ valid) st, [])); exact Hup.
    + specialize (Hup (updateFiles (fun prev => prev ++ valid) st) Hwf).
      destruct (if autoUpload p && truthy (uploadUrl p)
                then handleUpload p valid (updateFiles (fun prev => prev ++ valid) st)
                else (updateFiles (fun prev => prev ++ valid) st, [])); exact Hup.
  - specialize (Hup (setFiles valid st) Hwf).
    destruct (if autoUpload p && truthy (uploadUrl p)
              then handleUpload p valid (setFiles valid st)
              else (setFiles valid st, [])) as [st'' sent].
    repeat split_gtb; first [exact Hup | exact Hwf].
Qed.

Lemma step_wf (p : FileUploaderProps) (st : State) (ev : Event) :
  wfState st -> wfState (fst (step p st ev)).
Proof.
  intros Hwf.
  destruct ev as [selected|dropped| |isDisabled|xid computable loaded total|xid status|xid];
    simpl.
  - apply handleFileChange_wf. exact Hwf.
  - unfold handleDrop. destruct (disabled st); [exact Hwf|].
    destruct dropped; [apply handleFileChange_wf|]; exact Hwf.
  - unfold onClickUpload. destruct (uploadButtonEnabled p st); [|exact Hwf].
    apply handleUpload_wf. exact Hwf.
  - unfold renderDisabled. destruct (Bool.eqb isDisabled (disabled st)); exact Hwf.
  - unfold onProgress. destruct (findXhr xid st); [|exact Hwf].
    destruct computable; exact Hwf.
  - unfold onLoad. destruct (findXhr xid st); [|exact Hwf].
    destruct ((status >=? 200) && (status <? 300)); apply settleXhr_wf; exact Hwf.
  - unfold onError. destruct (findXhr xid st); [|exact Hwf].
    apply settleXhr_wf; exact Hwf.
Qed.

(** Every state of a session keeps request ids apart. *)
Lemma run_wf (p : FileUploaderProps) (evs : list Event) :
  forall st, wfState st -> wfState (fst (run p st evs)).
Proof.
  induction evs as [|ev rest IH]; intros st Hwf; simpl; [exact Hwf|].
  pose proof (step_wf p st ev Hwf) as Hstep.
  destruct (step p st ev) as [st1 out1]. simpl in Hstep.
  specialize (IH st1 Hstep). destruct (run p st1 rest) as [st2 out2]. exact IH.
Qed.


(** ** One upload *)


Lemma handleUpload_started (p : FileUploaderProps) (toUpload : list File) (st : State)
    (url : string) :
  uploadUrl p = Some url -> url <> "" -> toUpload <> [] -> xhrOpens url = true ->
  handleUpload p toUpload st
  = (sendXhr toUpload
       (setUploadProgress Zero (setUploadStatus uploading (setIsUploading true st))),
     [XhrSend (nextXhr st) "POST" url (formDataOf toUpload)]).
Proof.
  intros Hurl Hne Hfiles Hopen. unfold handleUpload. rewrite Hurl. simpl truthy.
  destruct (String.eqb_spec url "") as [->|_]; [congruence|].
  destruct toUpload as [|file rest]; [congruence|]. simpl. rewrite Hopen. reflexivity.
Qed.

(** The [catch] block: [xhr.open] has thrown, nothing was sent. *)
Lemma handleUpload_refused (p : FileUploaderProps) (toUpload : list File) (st : State)
    (url : string) :
  uploadUrl p = Some url -> url <> "" -> toUpload <> [] -> xhrOpens url = false ->
  handleUpload p toUpload st
  = (setIsUploading false
       (setUploadStatus error
          (setUploadProgress Zero (setUploadStatus uploading (setIsUploading true st)))),
     [OnUploadError (OpenFailed url); Toast UploadFailed true]).
Proof.
  intros Hurl Hne Hfiles Hopen. unfold handleUpload. rewrite Hurl. simpl truthy.
  destruct (String.eqb_spec url "") as [->|_]; [congruence|].
  destruct toUpload as [|file rest]; [congruence|]. simpl. rewrite Hopen. reflexivity.
Qed.


(** Every call site hands [handleUpload] a non-empty list and a truthy
    URL: the button is rendered and enabled only then. *)
Lemma click_upload_guard (p : FileUploaderProps) (st : State) :
  uploadButtonEnabled p st = true ->
  files st <> [] /\ truthy (uploadUrl p) = true /\ isUploading st = false.
Proof.
  unfold uploadButtonEnabled. rewrite nonempty_length. intros H.
  apply andb_prop in H as [H Hdis]. apply andb_prop in H as [Hlen Hurl].
  split; [destruct (files st); [discriminate|discriminate]|].
  split; [exact Hurl|].
  destruct (isUploading st); [discriminate|reflexivity].
Qed.

Lemma handleUpload_out (p : FileUploaderProps) (toUpload : list File) (st : State)
    (e : Effect) :
  In e (snd (handleUpload p toUpload st)) ->
  exists url, uploadUrl p = Some url /\ toUpload <> []
              /\ (e = XhrSend (nextXhr st) "POST" url (formDataOf toUpload)
                  \/ e = OnUploadError (OpenFailed url) \/ e = Toast UploadFailed true).
Proof.
  unfold handleUpload. destruct (uploadUrl p) as [url|]; [|intros []].
  destruct toUpload as [|file rest];
    [rewrite orb_true_r; intros []|].
  destruct (negb (truthy (Some url)) || _); [intros []|].
  destruct (xhrOpens url).
  - intros [<-|[]]. exists url. split; [reflexivity|]. split; [discriminate|].
    left. reflexivity.
  - intros Hin. exists url. split; [reflexivity|]. split; [discriminate|].
    right. destruct Hin as [<-|[<-|[]]]; [left|right]; reflexivity.
Qed.

Lemma handleFileChange_out (p : FileUploaderProps) (captured : list File)
    (selectedFiles : option (list File)) (st : State)
    (id : nat) (method url : string) (formData : list (string * File)) :
  In (XhrSend id method url formData)
     (snd (handleFileChange p captured selectedFiles st)) ->
  exists toUpload, uploadUrl p = Some url /\ toUpload <> [] /\ method = "POST"
                   /\ formData = formDataOf toUpload.
Proof.
  unfold handleFileChange. destruct selectedFiles as [batch|]; [|intros []].
  destruct (validateEach p batch ∅ []) as [errs valid].
  assert (Hup : forall st0,
            In (XhrSend id method url formData)
               (snd (if autoUpload p && truthy (uploadUrl p)
                     then handleUpload p valid st0 else (st0, []))) ->
            exists toUpload, uploadUrl p = Some url /\ toUpload <> [] /\ method = "POST"
                             /\ formData = formDataOf toUpload).
  { intros st0. destruct (autoUpload p && truthy (uploadUrl p)); [|intros []].
    intros Hin. apply handleUpload_out in Hin as (u & Hu & Hne & [Heq|[Heq|Heq]]);
      try discriminate.
    inversion Heq; subst. exists valid. repeat split; assumption. }
  assert (Hsel : forall st0 (tail : list Effect),
            In (XhrSend id method url formData)
               ((let '(st'', sent) :=
                   if autoUpload p && truthy (uploadUrl p)
                   then handleUpload p valid st0 else (st0, []) in
                 (st'', OnFileSelected valid :: sent)).2 ++ tail) ->
            In (XhrSend id method url formData) tail
            \/ exists toUpload, uploadUrl p = Some url /\ toUpload <> []
                                /\ method = "POST" /\ formData = formDataOf toUpload).
  { intros st0 tail. specialize (Hup st0).
    destruct (if autoUpload p && truthy (uploadUrl p)
              then handleUpload p valid st0 else (st0, [])) as [st'' sent].
    simpl. intros [Heq|Hin]; [discriminate|].
    apply in_app_or in Hin as [Hin|Hin]; [right; apply Hup; exact Hin|left; exact Hin]. }
  destruct (multiple p).
  - repeat split_gtb; simpl;
      try (intros [Heq|[Heq|[]]]; discriminate).
    + specialize (Hsel (updateFiles (fun prev => prev ++ valid) st)
                    [OnValidationError (JoinedValues errs)]).
      destruct (if autoUpload p && truthy (uploadUrl p)
                then handleUpload p valid (updateFiles (fun prev => prev ++ valid) st)
                else (updateFiles (fun prev => prev ++ valid) st, [])) as [st'' sent].
      simpl in *. intros Hin. destruct (Hsel Hin) as [[Heq|[]]|Hex];
        [discriminate|exact Hex].
    + specialize (Hsel (updateFiles (fun prev => prev ++ valid) st) []).
      destruct (if autoUpload p && truthy (uploadUrl p)
                then handleUpload p valid (updateFiles (fun prev => prev ++ valid) st)
                else (updateFiles (fun prev => prev ++ valid) st, [])) as [st'' sent].
      simpl in *. rewrite app_nil_r in Hsel.
      intros Hin. destruct (Hsel Hin) as [[]|Hex]; exact Hex.
    + intros [Heq|[]]; discriminate.
    + intros [].
  - repeat split_gtb; simpl.
    + specialize (Hsel (setFiles valid st) [OnValidationError (JoinedValues errs)]).
      destruct (if autoUpload p && truthy (uploadUrl p)
                then handleUpload p valid (setFiles valid st)
                else (setFiles valid st, [])) as [st'' sent].
      simpl in *. intros Hin. destruct (Hsel Hin) as [[Heq|[]]|Hex];
        [discriminate|exact Hex].
    + specialize (Hsel (setFiles valid st) []).
      destruct (if autoUpload p && truthy (uploadUrl p)
                then handleUpload p valid (setFiles valid st)
                else (setFiles valid st, [])) as [st'' sent].
      simpl in *. rewrite app_nil_r in Hsel.
      intros Hin. destruct (Hsel Hin) as [[]|Hex]; exact Hex.
    + destruct (if autoUpload p && truthy (uploadUrl p)
                then handleUpload p valid (setFiles valid st)
                else (setFiles valid st, [])) as [st'' sent].
      simpl. intros [Heq|[]]; discriminate.
    + destruct (if autoUpload p && truthy (uploadUrl p)
                then handleUpload p valid (setFiles valid st)
                else (setFiles valid st, [])) as [st'' sent].
      intros [].
Qed.

(** Whatever the event, a request sent by the component is a POST to the
    configured URL carrying at least one part. *)
Lemma step_requests (p : FileUploaderProps) (st : State) (ev : Event)
    (id : nat) (method url : string) (formData : list (string * File)) :
  In (XhrSend id method url formData) (snd (step p st ev)) ->
  exists toUpload, uploadUrl p = Some url /\ toUpload <> [] /\ method = "POST"
                   /\ formData = formDataOf toUpload.
Proof.
  destruct ev as [selected|dropped| |isDisabled|xid computable loaded total|xid status|xid];
    simpl.
  - apply handleFileChange_out.
  - unfold handleDrop. destruct (disabled st); [intros []|].
    destruct dropped; [apply handleFileChange_out|intros []].
  - unfold onClickUpload. destruct (uploadButtonEnabled p st); [|intros []].
    intros Hin. apply handleUpload_out in Hin as (u & Hu & Hne & [Heq|[Heq|Heq]]);
      try discriminate.
    inversion Heq; subst. exists (files st). repeat split; assumption.
  - intros [].
  - unfold onProgress. destruct (findXhr xid st); [|intros []].
    destruct computable; [intros [Heq|[]]; discriminate|intros []].
  - unfold onLoad. destruct (findXhr xid st); [|intros []].
    destruct ((status >=? 200) && (status <? 300));
      intros [Heq|[Heq|[]]]; discriminate.
  - unfold onError. destruct (findXhr xid st); [|intros []].
    intros [Heq|[Heq|[]]]; discriminate.
Qed.

(** ** Uploads in flight *)

(** The button path is gated: while an upload is in progress a click
    does nothing. *)
Lemma click_upload_while_uploading (p : FileUploaderProps) (st : State) :
  isUploading st = true -> step p st ClickUpload = (st, []).
Proof.
  intros Hbusy. simpl. unfold onClickUpload.
  destruct (uploadButtonEnabled p st) eqn:Henabled; [|reflexivity].
  apply click_upload_guard in Henabled as (_ & _ & Hidle). congruence.
Qed.

(** [handleUpload] itself does not look at [isUploading]: called with
    files and a URL that [xhr.open] accepts, it always puts one more
    request in flight. *)
Lemma handleUpload_adds_request (p : FileUploaderProps) (toUpload : list File)
    (st : State) (url : string) :
  uploadUrl p = Some url -> url <> "" -> toUpload <> [] -> xhrOpens url = true ->
  length (pending (fst (handleUpload p toUpload st))) = S (length (pending st))
  /\ uploadProgress (fst (handleUpload p toUpload st)) = Zero.
Proof.
  intros Hurl Hne Hfiles Hopen.
  rewrite (handleUpload_started p toUpload st url Hurl Hne Hfiles Hopen). simpl.
  rewrite length_app. simpl. split; [lia|reflexivity].
Qed.

(** * Further properties of the component *)

(** ** Acceptance by the validator *)

Lemma passesBuiltIn_validate (p : FileUploaderProps) (file : File) :
  validate p file
  = if passesBuiltIn p file then checkCustom p file
    else if File.size file >? maxFileSize p
         then Some (FileExceedsMaximumSize (maxFileSize p))
         else if match allowedTypes p with
                 | [] => true
                 | _ :: _ => includes (allowedTypes p) (fileExtension file)
                 end
              then Some (FileTypeNotAllowed (File.type file))
              else Some (FileTypeNotAllowed (fileExtension file)).
Proof.
  unfold validate, passesBuiltIn, checkCustom. rewrite !nonempty_length.
  destruct (Z.gtb_spec (File.size file) (maxFileSize p));
    destruct (Z.leb_spec (File.size file) (maxFileSize p)); try lia; [reflexivity|].
  simpl andb.
  destruct (allowedTypes p) as [|t ts];
    [|destruct (includes (t :: ts) (fileExtension file)); [|reflexivity]];
    simpl negb; simpl andb;
    (destruct (allowedMimeTypes p) as [|m ms];
     [|destruct (includes (m :: ms) (File.type file)); [|reflexivity]]);
    reflexivity.
Qed.

Lemma passesBuiltIn_iff (p : FileUploaderProps) (file : File) :
  passesBuiltIn p file = true <->
  File.size file <= maxFileSize p
  /\ (allowedTypes p = [] \/ includes (allowedTypes p) (fileExtension file) = true)
  /\ (allowedMimeTypes p = [] \/ includes (allowedMimeTypes p) (File.type file) = true).
Proof.
  unfold passesBuiltIn. rewrite !andb_true_iff, Z.leb_le.
  assert (Hlist : forall (xs : list string) (x : string),
            match xs with [] => true | _ :: _ => includes xs x end = true
            <-> xs = [] \/ includes xs x = true).
  { intros xs x. destruct xs as [|y ys]; [split; auto|].
    split; [auto|]. intros [H|H]; [discriminate|exact H]. }
  rewrite !Hlist. tauto.
Qed.

Lemma checkCustom_None_iff (p : FileUploaderProps) (file : File) :
  checkCustom p file = None <->
  forall predicate, validateFile p = Some predicate -> predicate file = Truthy.
Proof.
  unfold checkCustom. destruct (validateFile p) as [predicate|].
  - destruct (predicate file) eqn:Hpred; split; try discriminate.
    + intros _ q [= <-]. exact Hpred.
    + reflexivity.
    + intros H. specialize (H _ eq_refl). congruence.
    + intros H. specialize (H _ eq_refl). congruence.
  - split; [discriminate|reflexivity].
Qed.

(** X1. A file is accepted exactly when it is not larger than maxFileSize, its
    extension is listed in allowedTypes unless that list is empty, its
    MIME type is listed in allowedMimeTypes unless that list is empty, and
    the custom predicate, when there is one, answers true. *)
Theorem validate_accepts_iff (p : FileUploaderProps) (file : File) :
  validate p file = None <->
  File.size file <= maxFileSize p
  /\ (allowedTypes p = [] \/ includes (allowedTypes p) (fileExtension file) = true)
  /\ (allowedMimeTypes p = [] \/ includes (allowedMimeTypes p) (File.type file) = true)
  /\ (forall predicate, validateFile p = Some predicate -> predicate file = Truthy).
Proof.
  rewrite <- checkCustom_None_iff.
  assert (Hsplit : validate p file = None
                   <-> passesBuiltIn p file = true /\ checkCustom p file = None).
  { rewrite passesBuiltIn_validate. destruct (passesBuiltIn p file).
    - tauto.
    - split; [|intros [H _]; discriminate].
      repeat match goal with |- context [if ?c then _ else _] => destruct c end;
        discriminate. }
  rewrite Hsplit, passesBuiltIn_iff. tauto.
Qed.

(** X2. A file that is small enough and passes the extension check, but whose
    MIME type is missing from a non-empty allowedMimeTypes, is rejected
    with 'File type <its MIME type> not allowed', whatever the custom
    predicate would say. *)
Theorem mime_outside_allowedMimeTypes_rejected (p : FileUploaderProps) (file : File) :
  allowedMimeTypes p <> [] ->
  File.size file <= maxFileSize p ->
  allowedTypes p = [] \/ includes (allowedTypes p) (fileExtension file) = true ->
  includes (allowedMimeTypes p) (File.type file) = false ->
  validate p file = Some (FileTypeNotAllowed (File.type file)).
Proof.
  intros Hne Hsize Hext Hmime. unfold validate. rewrite !nonempty_length.
  destruct (Z.gtb_spec (File.size file) (maxFileSize p)); [lia|].
  destruct (allowedMimeTypes p) as [|m ms]; [congruence|]. rewrite Hmime.
  destruct Hext as [->|Hext]; [reflexivity|].
  rewrite Hext. destruct (allowedTypes p); reflexivity.
Qed.

(** X3. The custom predicate is consulted last: for a file that passes the
    three built-in checks the outcome is the predicate's (true accepts,
    false gives 'File failed custom validation', an exception gives
    'Error validating file'); for a file that fails one of them the file
    is rejected and the outcome is the same under every predicate. *)
Theorem custom_predicate_consulted_last (p : FileUploaderProps) (file : File) :
  (passesBuiltIn p file = true ->
   forall predicate, validateFile p = Some predicate ->
     validate p file = match predicate file with
                       | Truthy => None
                       | Falsy => Some FileFailedCustomValidation
                       | Throws => Some ErrorValidatingFile
                       end)
  /\ (passesBuiltIn p file = false ->
      validate p file <> None
      /\ forall v, validate (withPredicate p v) file = validate p file).
Proof.
  split.
  - intros Hpass predicate Hpred. rewrite passesBuiltIn_validate, Hpass.
    unfold checkCustom. rewrite Hpred. reflexivity.
  - intros Hfail. split.
    + rewrite passesBuiltIn_validate, Hfail.
      repeat match goal with |- context [if ?c then _ else _] => destruct c end;
        discriminate.
    + intros v. rewrite !passesBuiltIn_validate.
      change (passesBuiltIn (withPredicate p v) file) with (passesBuiltIn p file).
      rewrite Hfail. reflexivity.
Qed.

(** ** The extension that is tested *)

(** X6. A name without any '.' is its own suffix: with only an extension list
    configured, such a file is accepted exactly when a dot followed by its
    whole lower-cased name is listed, so with allowedTypes = ['.jpg'] a
    file called JPG is accepted and a file called README is refused as
    '.readme'. *)
Theorem dotless_name_is_its_extension (p : FileUploaderProps)
    (name : string) (bytes : Z) (mime : string) :
  dotFree name = true ->
  allowedTypes p <> [] -> allowedMimeTypes p = [] -> validateFile p = None ->
  bytes <= maxFileSize p ->
  validate p (File.mk name bytes mime)
  = if includes (allowedTypes p) (String "." (toLowerCase name)) then None
    else Some (FileTypeNotAllowed (String "." (toLowerCase name))).
Proof.
  intros Hname Htypes Hmimes Hpred Hsize.
  rewrite passesBuiltIn_validate. unfold passesBuiltIn, checkCustom.
  rewrite Hmimes, Hpred, (fileExtension_no_dot name bytes mime Hname).
  simpl File.size.
  destruct (Z.leb_spec bytes (maxFileSize p)); [|lia].
  destruct (Z.gtb_spec bytes (maxFileSize p)); [lia|].
  destruct (allowedTypes p) as [|t ts]; [congruence|].
  destruct (includes (t :: ts) (String "." (toLowerCase name))); reflexivity.
Qed.

(** X4. The extension check sees the lower-cased suffix after the last
    dot and nothing else of the name: two files whose suffixes are equal
    after lower-casing are tested as the same extension, whatever precedes
    the last dot and whatever the case of the suffix (PHOTO.JPG and
    holiday.jpg are both tested as .jpg). *)
Theorem fileExtension_ignores_case (pre1 suf1 pre2 suf2 : string)
    (bytes1 bytes2 : Z) (mime1 mime2 : string) :
  dotFree suf1 = true -> dotFree suf2 = true ->
  toLowerCase suf1 = toLowerCase suf2 ->
  fileExtension (File.mk (pre1 +:+ String "." suf1) bytes1 mime1)
  = fileExtension (File.mk (pre2 +:+ String "." suf2) bytes2 mime2).
Proof.
  intros Hsuf1 Hsuf2 Hlower.
  rewrite (fileExtension_suffix pre1 suf1 bytes1 mime1 Hsuf1).
  rewrite (fileExtension_suffix pre2 suf2 bytes2 mime2 Hsuf2).
  rewrite Hlower. reflexivity.
Qed.

(** Letters outside A-Z are lower-cased as well, by the host: on a host
    that lower-cases 'É' to 'é', the file 'x.É' passes allowedTypes =
    ['.é']. *)
Example accented_suffix_is_lower_cased :
  toLowerCase "É" = "é" ->
  validate {| multiple := true; maxFileSize := 1000; maxTotalSize := 1500;
              maxFiles := 2; allowedTypes := [".é"]; allowedMimeTypes := [];
              validateFile := None; uploadUrl := None; autoUpload := false |}
           (File.mk "x.É" 5 "text/plain") = None.
Proof.
  intros Hlower. unfold validate.
  change (File.mk "x.É" 5 "text/plain")
    with (File.mk ("x" +:+ String "." "É") 5 "text/plain").
  rewrite (fileExtension_suffix "x" "É" 5 "text/plain" eq_refl), Hlower.
  reflexivity.
Qed.

Lemma fileExtension_startsWithDot (file : File) :
  startsWithDot (fileExtension file) = true.
Proof. reflexivity. Qed.

Lemma dotless_entries_exclude (entries : list string) (x : string) :
  (forall entry, In entry entries -> startsWithDot entry = false) ->
  startsWithDot x = true ->
  includes entries x = false.
Proof.
  intros Hall Hx. unfold includes.
  induction entries as [|entry rest IH]; simpl; [reflexivity|].
  destruct (String.eqb_spec x entry) as [->|_].
  - rewrite (Hall entry (or_introl eq_refl)) in Hx. discriminate.
  - apply IH. intros e He. apply Hall. right. exact He.
Qed.

(** X5. The tested extension always starts with a dot, and allowedTypes
    entries are compared as written: a non-empty allowedTypes none of
    whose entries starts with a dot (['png', 'jpg']) rejects every file
    that passes the size check, with 'File type <extension> not allowed'. *)
Theorem dotless_allowedTypes_reject_all (p : FileUploaderProps) (file : File) :
  allowedTypes p <> [] ->
  (forall entry, In entry (allowedTypes p) -> startsWithDot entry = false) ->
  File.size file <= maxFileSize p ->
  startsWithDot (fileExtension file) = true
  /\ validate p file = Some (FileTypeNotAllowed (fileExtension file)).
Proof.
  intros Hne Hall Hsize. split; [apply fileExtension_startsWithDot|].
  unfold validate. rewrite !nonempty_length.
  destruct (Z.gtb_spec (File.size file) (maxFileSize p)); [lia|].
  rewrite (dotless_entries_exclude _ _ Hall (fileExtension_startsWithDot file)).
  destruct (allowedTypes p); [congruence|reflexivity].
Qed.

(** ** The reasons collected by the loop *)

Lemma rejectionOf_Some (p : FileUploaderProps) (batch : list File) (name : string)
    (reason : Message) :
  rejectionOf p batch name = Some reason ->
  storable name = true
  /\ exists file, In file batch /\ File.name file = name /\ validate p file = Some reason.
Proof.
  induction batch as [|f rest IH]; simpl; [discriminate|].
  destruct (rejectionOf p rest name) as [later|].
  - intros [= <-]. destruct (IH eq_refl) as (Hkey & file & Hin & Hname & Hv).
    split; [exact Hkey|]. exists file. auto.
  - destruct (String.eqb_spec (File.name f) name) as [Hname|]; [|discriminate].
    destruct (storable name) eqn:Hkey; [|discriminate]. simpl. intros Hv.
    split; [reflexivity|]. exists f. auto.
Qed.

Lemma rejectionOf_None (p : FileUploaderProps) (batch : list File) (name : string) :
  (forall file, In file batch -> File.name file = name -> accepted p file = true) ->
  rejectionOf p batch name = None.
Proof.
  intros Hall. destruct (rejectionOf p batch name) as [reason|] eqn:Hrej; [|reflexivity].
  apply rejectionOf_Some in Hrej as (_ & file & Hin & Hname & Hv).
  specialize (Hall file Hin Hname). unfold accepted in Hall. rewrite Hv in Hall.
  discriminate.
Qed.

Lemma rejectionOf_app (p : FileUploaderProps) (before after : list File) (name : string) :
  rejectionOf p (before ++ after) name
  = match rejectionOf p after name with
    | Some reason => Some reason
    | None => rejectionOf p before name
    end.
Proof.
  induction before as [|f rest IH]; simpl.
  - destruct (rejectionOf p after name); reflexivity.
  - rewrite IH. destruct (rejectionOf p after name); [reflexivity|].
    destruct (rejectionOf p rest name); reflexivity.
Qed.

(** X7. After the loop, [validFiles] holds the accepted files of the batch in
    their order, and the keys of [newErrors] are exactly the names, other
    than "__proto__", of the rejected files: no file is lost and no name
    is blamed without a rejected file carrying it. *)
Theorem validateEach_partitions_batch (p : FileUploaderProps) (batch : list File) :
  snd (validateEach p batch ∅ []) = List.filter (accepted p) batch
  /\ forall name,
       is_Some (fst (validateEach p batch ∅ []) !! name)
       <-> storable name = true
           /\ exists file, In file batch /\ File.name file = name
                            /\ accepted p file = false.
Proof.
  split; [apply (validateEach_valid p batch ∅ [])|].
  intros name. rewrite validateEach_errors, lookup_empty. split.
  - intros [reason Hreason].
    destruct (rejectionOf p batch name) as [r|] eqn:Hrej; [|discriminate].
    apply rejectionOf_Some in Hrej as (Hkey & file & Hin & Hname & Hv).
    split; [exact Hkey|]. exists file. unfold accepted. rewrite Hv. auto.
  - intros (Hkey & file & Hin & <- & Hrej).
    destruct (rejectionOf_rejected p batch file Hin Hrej Hkey) as [reason ->]. eauto.
Qed.

(** X8. When several rejected files of a batch carry the same name, the reason
    kept under the name is that of the last of them. *)
Theorem later_rejection_overwrites (p : FileUploaderProps) (before after : list File)
    (file : File) (reason : Message) :
  validate p file = Some reason ->
  storable (File.name file) = true ->
  (forall later, In later after -> File.name later = File.name file ->
     accepted p later = true) ->
  fst (validateEach p (before ++ file :: after) ∅ []) !! File.name file = Some reason.
Proof.
  intros Hv Hkey Hafter.
  rewrite validateEach_errors, rejectionOf_app. simpl.
  rewrite (rejectionOf_None p after _ Hafter), String.eqb_refl, Hkey, Hv. reflexivity.
Qed.

Lemma rejectionOf_unstorable (p : FileUploaderProps) (batch : list File) (name : string) :
  storable name = false -> rejectionOf p batch name = None.
Proof.
  intros Hkey. induction batch as [|f rest IH]; simpl; [reflexivity|].
  rewrite IH, Hkey, andb_false_r. reflexivity.
Qed.

Lemma Object_keys_of_empty : Object_keys ∅ = [].
Proof. unfold Object_keys. rewrite map_to_list_empty. reflexivity. Qed.

(** ** The shape of a selection *)

(** [handleFileChange] once the loop has run: a limit refusal, or the
    shared tail applied to the updated selection. *)
Lemma handleFileChange_shape (p : FileUploaderProps) (captured batch : list File)
    (st : State) :
  let valid := validFilesOf p batch in
  let newErrors := fst (validateEach p batch ∅ []) in
  handleFileChange p captured (Some batch) st
  = if multiple p then
      if Z.of_nat (length captured) + Z.of_nat (length valid) >? maxFiles p then
        (st, [Toast (MaximumFilesAllowed (maxFiles p)) true;
              OnValidationError (Text (MaximumFilesAllowed (maxFiles p)))])
      else if totalSizeOf captured + totalSizeOf valid >? maxTotalSize p then
        (st, [Toast (TotalSizeExceedsMaximum (maxTotalSize p)) true;
              OnValidationError (Text (TotalSizeExceedsMaximum (maxTotalSize p)))])
      else
        publish p true valid newErrors
          (if Z.of_nat (length valid) >? 0
           then updateFiles (fun prev => prev ++ valid) st else st)
    else publish p false valid newErrors (setFiles valid st).
Proof.
  intros valid newErrors. subst valid newErrors. unfold handleFileChange.
  destruct (validateEach_batch p batch) as (errs & -> & _). simpl fst.
  unfold publish, maybeUpload.
  destruct (multiple p); [|reflexivity].
  repeat split_gtb; reflexivity.
Qed.

Lemma maybeUpload_fields (p : FileUploaderProps) (valid : list File) (st0 : State) :
  files (fst (maybeUpload p valid st0)) = files st0
  /\ validationErrors (fst (maybeUpload p valid st0)) = validationErrors st0
  /\ disabled (fst (maybeUpload p valid st0)) = disabled st0
  /\ memoFiles (fst (maybeUpload p valid st0)) = memoFiles st0.
Proof.
  unfold maybeUpload, handleUpload.
  destruct (autoUpload p && truthy (uploadUrl p)); [|repeat split].
  destruct (uploadUrl p) as [url|]; [|repeat split].
  destruct (negb (truthy (Some url)) || (Z.of_nat (length valid) =? 0));
    [|destruct (xhrOpens url)]; repeat split.
Qed.

(** What the shared tail does to the selection and to the recorded reasons. *)
Lemma publish_fields (p : FileUploaderProps) (merge : bool) (valid : list File)
    (newErrors : gmap string Message) (st0 : State) :
  files (fst (publish p merge valid newErrors st0)) = files st0
  /\ disabled (fst (publish p merge valid newErrors st0)) = disabled st0
  /\ memoFiles (fst (publish p merge valid newErrors st0)) = memoFiles st0
  /\ validationErrors (fst (publish p merge valid newErrors st0))
     = if Z.of_nat (length (Object_keys newErrors)) >? 0
       then (if merge then newErrors ∪ validationErrors st0 else newErrors)
       else validationErrors st0.
Proof.
  unfold publish. destruct (maybeUpload_fields p valid st0) as (Hf & Hv & Hd & Hm).
  destruct (maybeUpload p valid st0) as [st'' sent]. simpl in *.
  destruct (Z.of_nat (length valid) >? 0);
    destruct (Z.of_nat (length (Object_keys newErrors)) >? 0);
    destruct merge; simpl; rewrite ?Hf, ?Hv, ?Hd, ?Hm; repeat split.
Qed.

(** The effects of the shared tail, in order. *)
Lemma publish_out (p : FileUploaderProps) (merge : bool) (valid : list File)
    (newErrors : gmap string Message) (st0 : State) :
  snd (publish p merge valid newErrors st0)
  = (if Z.of_nat (length valid) >? 0
     then OnFileSelected valid :: snd (maybeUpload p valid st0) else [])
    ++ (if Z.of_nat (length (Object_keys newErrors)) >? 0
        then [OnValidationError (JoinedValues newErrors)] else []).
Proof.
  unfold publish. destruct (maybeUpload p valid st0) as [st'' sent]. simpl.
  destruct (Z.of_nat (length valid) >? 0);
    destruct (Z.of_nat (length (Object_keys newErrors)) >? 0); simpl;
    rewrite ?app_nil_r; reflexivity.
Qed.

Lemma maybeUpload_out (p : FileUploaderProps) (valid : list File) (st0 : State)
    (e : Effect) :
  In e (snd (maybeUpload p valid st0)) ->
  exists url, autoUpload p = true /\ uploadUrl p = Some url /\ valid <> []
              /\ (e = XhrSend (nextXhr st0) "POST" url (formDataOf valid)
                  \/ e = OnUploadError (OpenFailed url) \/ e = Toast UploadFailed true).
Proof.
  unfold maybeUpload. destruct (autoUpload p) eqn:Hauto; [|intros []]. simpl.
  destruct (truthy (uploadUrl p)); [|intros []]. intros Hin.
  apply handleUpload_out in Hin as (url & Hurl & Hne & Heq). exists url. auto.
Qed.

Lemma nonempty_gtb {A : Type} (l : list A) :
  l <> [] -> (Z.of_nat (length l) >? 0) = true.
Proof. rewrite nonempty_length. destruct l; [congruence|reflexivity]. Qed.


Lemma handleFileChange_selected (p : FileUploaderProps)
    (captured batch : list File) (st : State) (selected : list File) :
  In (OnFileSelected selected) (snd (handleFileChange p captured (Some batch) st)) ->
  selected = validFilesOf p batch
  /\ selected <> []
  /\ (multiple p = true ->
      Z.of_nat (length captured) + Z.of_nat (length (validFilesOf p batch)) <= maxFiles p
      /\ totalSizeOf captured + totalSizeOf (validFilesOf p batch) <= maxTotalSize p).
Proof.
  rewrite handleFileChange_shape.
  assert (Htail : forall merge st0,
            In (OnFileSelected selected)
               (snd (publish p merge (validFilesOf p batch)
                       (fst (validateEach p batch ∅ [])) st0)) ->
            selected = validFilesOf p batch /\ selected <> []).
  { intros merge st0. rewrite publish_out. intros Hin.
    apply in_app_or in Hin as [Hin|Hin].
    - destruct (Z.of_nat (length (validFilesOf p batch)) >? 0) eqn:Hlen; [|destruct Hin].
      destruct Hin as [[= <-]|Hin].
      + split; [reflexivity|]. rewrite nonempty_length in Hlen.
        destruct (validFilesOf p batch); [discriminate|discriminate].
      + apply maybeUpload_out in Hin as (url & _ & _ & _ & [Heq|[Heq|Heq]]);
          discriminate.
    - destruct (Z.of_nat (length (Object_keys (fst (validateEach p batch ∅ [])))) >? 0);
        [destruct Hin as [Heq|[]]; discriminate|destruct Hin]. }
  destruct (multiple p).
  - destruct (Z.gtb_spec (Z.of_nat (length captured)
                          + Z.of_nat (length (validFilesOf p batch))) (maxFiles p));
      [intros [Heq|[Heq|[]]]; discriminate|].
    destruct (Z.gtb_spec (totalSizeOf captured + totalSizeOf (validFilesOf p batch))
                (maxTotalSize p));
      [intros [Heq|[Heq|[]]]; discriminate|].
    intros Hin. destruct (Htail _ _ Hin) as (Heq & Hne).
    split; [exact Heq|]. split; [exact Hne|]. intros _. split; assumption.
  - intros Hin. destruct (Htail _ _ Hin) as (Heq & Hne).
    split; [exact Heq|]. split; [exact Hne|]. discriminate.
Qed.

(** X13. [onFileSelected] is only ever called with a non-empty list, which is
    exactly the list of valid files of the event, in their order, and
    these files are then part of the selection: appended to it in
    multiple-file mode, making it up in single-file mode. *)
Theorem onFileSelected_gets_valid_files (p : FileUploaderProps)
    (captured batch : list File) (st : State) (selected : list File) :
  In (OnFileSelected selected) (snd (handleFileChange p captured (Some batch) st)) ->
  selected = validFilesOf p batch
  /\ selected <> []
  /\ files (fst (handleFileChange p captured (Some batch) st))
     = if multiple p then files st ++ selected else selected.
Proof.
  intros Hin. destruct (handleFileChange_selected p captured batch st selected Hin)
    as (Heq & Hne & Hlimits).
  split; [exact Heq|]. split; [exact Hne|]. subst selected.
  destruct (multiple p) eqn:Hmulti.
  - destruct (Hlimits eq_refl) as [Hcount Hsize].
    exact (proj1 (handleFileChange_admitted p captured batch st Hmulti Hcount Hsize)).
  - exact (proj1 (handleFileChange_single p captured batch st Hmulti)).
Qed.

Lemma requestsOf_app (out1 out2 : list Effect) :
  requestsOf (out1 ++ out2) = requestsOf out1 ++ requestsOf out2.
Proof. unfold requestsOf. apply List.filter_app. Qed.

Lemma publish_requests (p : FileUploaderProps) (merge : bool) (valid : list File)
    (newErrors : gmap string Message) (st0 : State) :
  requestsOf (snd (publish p merge valid newErrors st0))
  = if Z.of_nat (length valid) >? 0
    then requestsOf (snd (maybeUpload p valid st0)) else [].
Proof.
  rewrite publish_out, requestsOf_app.
  destruct (Z.of_nat (length valid) >? 0);
    destruct (Z.of_nat (length (Object_keys newErrors)) >? 0); simpl;
    rewrite ?app_nil_r; reflexivity.
Qed.

Lemma handleFileChange_requests (p : FileUploaderProps) (captured batch : list File)
    (st : State) :
  requestsOf (snd (handleFileChange p captured (Some batch) st)) = []
  \/ exists st0, nextXhr st0 = nextXhr st
       /\ validFilesOf p batch <> []
       /\ requestsOf (snd (handleFileChange p captured (Some batch) st))
          = requestsOf (snd (maybeUpload p (validFilesOf p batch) st0)).
Proof.
  rewrite handleFileChange_shape.
  assert (Hlen : (Z.of_nat (length (validFilesOf p batch)) >? 0) = true ->
                 validFilesOf p batch <> []).
  { rewrite nonempty_length. destruct (validFilesOf p batch); [discriminate|discriminate]. }
  destruct (multiple p).
  - destruct (Z.of_nat (length captured) + Z.of_nat (length (validFilesOf p batch))
              >? maxFiles p); [left; reflexivity|].
    destruct (totalSizeOf captured + totalSizeOf (validFilesOf p batch) >? maxTotalSize p);
      [left; reflexivity|].
    rewrite publish_requests.
    destruct (Z.of_nat (length (validFilesOf p batch)) >? 0) eqn:Hvalid;
      [|left; reflexivity].
    right. eexists. split; [|split; [exact (Hlen eq_refl)|reflexivity]]. reflexivity.
  - rewrite publish_requests.
    destruct (Z.of_nat (length (validFilesOf p batch)) >? 0) eqn:Hvalid;
      [|left; reflexivity].
    right. eexists. split; [|split; [exact (Hlen eq_refl)|reflexivity]]. reflexivity.
Qed.

(** X14. Without autoUpload, or without an upload URL, selecting or dropping
    files never starts a request, whatever is selected. *)
Theorem selection_without_autoUpload_sends_nothing (p : FileUploaderProps)
    (captured : list File) (selectedFiles : option (list File)) (st : State) :
  autoUpload p = false \/ truthy (uploadUrl p) = false ->
  requestsOf (snd (handleFileChange p captured selectedFiles st)) = [].
Proof.
  intros Hoff. destruct selectedFiles as [batch|]; [|reflexivity].
  destruct (handleFileChange_requests p captured batch st) as [Hnone|(st0 & _ & _ & ->)];
    [exact Hnone|].
  unfold maybeUpload.
  destruct Hoff as [->| ->]; [reflexivity|]. rewrite andb_false_r. reflexivity.
Qed.

(** X15. With autoUpload and an upload URL, an admitted batch with valid
    files is handed to [handleUpload] at once. When [xhr.open] accepts the
    URL this starts exactly one request, a POST that carries the valid
    files of this batch only: in multiple-file mode the files selected
    earlier are not sent again. When [xhr.open] throws, no request is
    started. *)
Theorem autoUpload_sends_the_new_files (p : FileUploaderProps)
    (captured batch : list File) (st : State) (url : string) :
  autoUpload p = true -> uploadUrl p = Some url -> url <> "" ->
  validFilesOf p batch <> [] ->
  (multiple p = true ->
   Z.of_nat (length captured) + Z.of_nat (length (validFilesOf p batch)) <= maxFiles p
   /\ totalSizeOf captured + totalSizeOf (validFilesOf p batch) <= maxTotalSize p) ->
  requestsOf (snd (handleFileChange p captured (Some batch) st))
  = if xhrOpens url
    then [XhrSend (nextXhr st) "POST" url (formDataOf (validFilesOf p batch))]
    else [].
Proof.
  intros Hauto Hurl Hne Hvalid Hlimits.
  assert (Hsend : forall st0, nextXhr st0 = nextXhr st ->
            requestsOf (snd (maybeUpload p (validFilesOf p batch) st0))
            = if xhrOpens url
              then [XhrSend (nextXhr st) "POST" url (formDataOf (validFilesOf p batch))]
              else []).
  { intros st0 Hnext. unfold maybeUpload. rewrite Hauto, Hurl. simpl truthy.
    destruct (String.eqb_spec url "") as [->|_]; [congruence|]. simpl.
    destruct (xhrOpens url) eqn:Hopen.
    - rewrite (handleUpload_started p _ st0 url Hurl Hne Hvalid Hopen), Hnext.
      reflexivity.
    - rewrite (handleUpload_refused p _ st0 url Hurl Hne Hvalid Hopen). reflexivity. }
  rewrite handleFileChange_shape, (nonempty_gtb _ Hvalid).
  destruct (multiple p).
  - destruct (Hlimits eq_refl) as [Hcount Hsize].
    destruct (Z.gtb_spec (Z.of_nat (length captured)
                          + Z.of_nat (length (validFilesOf p batch))) (maxFiles p));
      [lia|].
    destruct (Z.gtb_spec (totalSizeOf captured + totalSizeOf (validFilesOf p batch))
                (maxTotalSize p)); [lia|].
    rewrite publish_requests, (nonempty_gtb _ Hvalid). apply Hsend. reflexivity.
  - rewrite publish_requests, (nonempty_gtb _ Hvalid). apply Hsend. reflexivity.
Qed.

(** ** The recorded reasons across selections *)

Lemma newErrors_empty (p : FileUploaderProps) (batch : list File) :
  (forall file, In file batch -> accepted p file = false ->
     File.name file = "__proto__") ->
  fst (validateEach p batch ∅ []) = ∅.
Proof.
  intros Hall. apply map_eq. intros name.
  rewrite validateEach_errors, !lookup_empty.
  destruct (rejectionOf p batch name) as [reason|] eqn:Hrej; [|reflexivity].
  apply rejectionOf_Some in Hrej as (Hkey & file & Hin & Hname & Hv).
  assert (Hrejected : accepted p file = false) by (unfold accepted; rewrite Hv; reflexivity).
  specialize (Hall file Hin Hrejected). subst name. rewrite Hall in Hkey. discriminate.
Qed.

(** X9. A rejected file called "__proto__" leaves no trace: the assignment
    [newErrors["__proto__"] = reason] stores nothing, so when the only
    rejected files of an event carry that name (in particular when no
    file is rejected) the recorded reasons stay as they were and
    onValidationError is not called with joined reasons, although the
    files are not selected. *)
Theorem rejection_named_proto_is_silent (p : FileUploaderProps)
    (captured batch : list File) (st : State) :
  (forall file, In file batch -> accepted p file = false ->
     File.name file = "__proto__") ->
  validationErrors (fst (handleFileChange p captured (Some batch) st))
  = validationErrors st
  /\ (forall joined, ~ In (OnValidationError (JoinedValues joined))
                         (snd (handleFileChange p captured (Some batch) st)))
  /\ (forall file, In file batch -> accepted p file = false ->
        ~ In file (validFilesOf p batch)).
Proof.
  intros Hall. rewrite handleFileChange_shape, (newErrors_empty p batch Hall).
  assert (Htail : forall merge st0,
            validationErrors (fst (publish p merge (validFilesOf p batch) ∅ st0))
            = validationErrors st0
            /\ forall joined, ~ In (OnValidationError (JoinedValues joined))
                                  (snd (publish p merge (validFilesOf p batch) ∅ st0))).
  { intros merge st0.
    destruct (publish_fields p merge (validFilesOf p batch) ∅ st0) as (_ & _ & _ & ->).
    rewrite publish_out, Object_keys_of_empty. simpl. rewrite app_nil_r.
    split; [reflexivity|]. intros joined Hin.
    destruct (Z.of_nat (length (validFilesOf p batch)) >? 0); [|destruct Hin].
    destruct Hin as [Heq|Hin]; [discriminate|].
    apply maybeUpload_out in Hin as (url & _ & _ & _ & [Heq|[Heq|Heq]]); discriminate. }
  split; [|split].
  - destruct (multiple p); [|rewrite (proj1 (Htail false _)); reflexivity].
    destruct (Z.of_nat (length captured) + Z.of_nat (length (validFilesOf p batch))
              >? maxFiles p); [reflexivity|].
    destruct (totalSizeOf captured + totalSizeOf (validFilesOf p batch) >? maxTotalSize p);
      [reflexivity|].
    rewrite (proj1 (Htail true _)).
    destruct (Z.of_nat (length (validFilesOf p batch)) >? 0); reflexivity.
  - intros joined. destruct (multiple p); [|apply Htail].
    destruct (Z.of_nat (length captured) + Z.of_nat (length (validFilesOf p batch))
              >? maxFiles p); [intros [Heq|[Heq|[]]]; discriminate|].
    destruct (totalSizeOf captured + totalSizeOf (validFilesOf p batch) >? maxTotalSize p);
      [intros [Heq|[Heq|[]]]; discriminate|].
    apply Htail.
  - intros file _ Hrej Hin. unfold validFilesOf in Hin.
    apply filter_In in Hin as [_ Hacc]. congruence.
Qed.

(** X10. In multiple-file mode a reason, once recorded under a name, is never
    removed by a later selection: whatever is selected next, admitted or
    refused, the name still has a reason afterwards. *)
Theorem multiple_mode_reasons_accumulate (p : FileUploaderProps)
    (captured : list File) (selectedFiles : option (list File)) (st : State)
    (name : string) :
  multiple p = true ->
  is_Some (validationErrors st !! name) ->
  is_Some (validationErrors (fst (handleFileChange p captured selectedFiles st)) !! name).
Proof.
  intros Hmulti Hold. destruct selectedFiles as [batch|]; [|exact Hold].
  rewrite handleFileChange_shape, Hmulti.
  destruct (Z.of_nat (length captured) + Z.of_nat (length (validFilesOf p batch))
            >? maxFiles p); [exact Hold|].
  destruct (totalSizeOf captured + totalSizeOf (validFilesOf p batch) >? maxTotalSize p);
    [exact Hold|].
  match goal with
  | |- context [publish p true ?v ?e ?s0] =>
      destruct (publish_fields p true v e s0) as (_ & _ & _ & ->);
      assert (Hsame : validationErrors s0 = validationErrors st)
        by (destruct (Z.of_nat (length v) >? 0); reflexivity);
      rewrite Hsame
  end.
  destruct (Z.of_nat (length (Object_keys (fst (validateEach p batch ∅ [])))) >? 0);
    [|exact Hold].
  rewrite lookup_union. destruct Hold as [old ->].
  destruct (fst (validateEach p batch ∅ []) !! name); simpl; eauto.
Qed.


(** X12. In multiple-file mode an event without any valid file never touches
    the selection, never calls onFileSelected and never starts a request
    (in single-file mode the same event empties the selection). *)
Theorem multiple_mode_all_rejected_keeps_selection (p : FileUploaderProps)
    (captured batch : list File) (st : State) :
  multiple p = true ->
  validFilesOf p batch = [] ->
  files (fst (handleFileChange p captured (Some batch) st)) = files st
  /\ pending (fst (handleFileChange p captured (Some batch) st)) = pending st
  /\ uploadStatus (fst (handleFileChange p captured (Some batch) st)) = uploadStatus st
  /\ requestsOf (snd (handleFileChange p captured (Some batch) st)) = []
  /\ forall selected,
       ~ In (OnFileSelected selected) (snd (handleFileChange p captured (Some batch) st)).
Proof.
  intros Hmulti Hnone.
  assert (Hsel : forall selected,
            ~ In (OnFileSelected selected)
                (snd (handleFileChange p captured (Some batch) st))).
  { intros selected Hin.
    apply handleFileChange_selected in Hin. destruct Hin as (Heq & Hne & _). congruence. }
  assert (Hreq : requestsOf (snd (handleFileChange p captured (Some batch) st)) = []).
  { destruct (handleFileChange_requests p captured batch st) as [H|(st0 & _ & Hne & _)];
      [exact H|congruence]. }
  assert (Hfields : files (fst (handleFileChange p captured (Some batch) st)) = files st
            /\ pending (fst (handleFileChange p captured (Some batch) st)) = pending st
            /\ uploadStatus (fst (handleFileChange p captured (Some batch) st))
               = uploadStatus st).
  { rewrite handleFileChange_shape, Hmulti, Hnone.
    destruct (Z.of_nat (length captured) + Z.of_nat (length (@nil File)) >? maxFiles p);
      [repeat split|].
    destruct (totalSizeOf captured + totalSizeOf [] >? maxTotalSize p); [repeat split|].
    unfold publish. simpl.
    destruct (Z.of_nat (length (Object_keys (fst (validateEach p batch ∅ [])))) >? 0);
      repeat split. }
  destruct Hfields as (Hf & Hp & Hs). repeat split; assumption.
Qed.

(** ** The busy flag *)

Lemma handleUpload_busy (p : FileUploaderProps) (toUpload : list File) (st : State) :
  busyInv st -> busyInv (fst (handleUpload p toUpload st)).
Proof.
  intros Hinv. unfold handleUpload. destruct (uploadUrl p) as [url|]; [|exact Hinv].
  destruct (negb (truthy (Some url)) || (Z.of_nat (length toUpload) =? 0)); [exact Hinv|].
  unfold busyInv, flagsAgree. destruct (xhrOpens url); simpl.
  - split; [tauto|]. intros _. destruct (pending st); discriminate.
  - split; [split; discriminate|discriminate].
Qed.

Lemma publish_busy (p : FileUploaderProps) (merge : bool) (valid : list File)
    (newErrors : gmap string Message) (st0 : State) :
  busyInv st0 -> busyInv (fst (publish p merge valid newErrors st0)).
Proof.
  intros Hinv. unfold publish.
  assert (Hup : busyInv (fst (maybeUpload p valid st0))).
  { unfold maybeUpload. destruct (autoUpload p && truthy (uploadUrl p)); [|exact Hinv].
    apply handleUpload_busy. exact Hinv. }
  destruct (maybeUpload p valid st0) as [st'' sent]. simpl in Hup.
  destruct (Z.of_nat (length valid) >? 0);
    destruct (Z.of_nat (length (Object_keys newErrors)) >? 0);
    destruct merge; simpl; assumption.
Qed.

Lemma handleFileChange_busy (p : FileUploaderProps) (captured : list File)
    (selectedFiles : option (list File)) (st : State) :
  busyInv st -> busyInv (fst (handleFileChange p captured selectedFiles st)).
Proof.
  intros Hinv. destruct selectedFiles as [batch|]; [|exact Hinv].
  rewrite handleFileChange_shape.
  destruct (multiple p); [|apply publish_busy; exact Hinv].
  destruct (Z.of_nat (length captured) + Z.of_nat (length (validFilesOf p batch))
            >? maxFiles p); [exact Hinv|].
  destruct (totalSizeOf captured + totalSizeOf (validFilesOf p batch) >? maxTotalSize p);
    [exact Hinv|].
  apply publish_busy. destruct (Z.of_nat (length (validFilesOf p batch)) >? 0); exact Hinv.
Qed.

Lemma settle_busy (id : nat) (status : UploadStatus) (st : State) :
  status <> uploading ->
  busyInv (settleXhr id (setIsUploading false (setUploadStatus status st))).
Proof.
  intros Hstatus. unfold busyInv, flagsAgree. simpl. split; [|discriminate].
  split; [discriminate|]. intros Heq. congruence.
Qed.

Lemma step_busy (p : FileUploaderProps) (st : State) (ev : Event) :
  busyInv st -> busyInv (fst (step p st ev)).
Proof.
  intros Hinv.
  destruct ev as [selected|dropped| |isDisabled|xid computable loaded total|xid status|xid];
    simpl.
  - apply handleFileChange_busy. exact Hinv.
  - unfold handleDrop. destruct (disabled st); [exact Hinv|].
    destruct dropped; [apply handleFileChange_busy|]; exact Hinv.
  - unfold onClickUpload. destruct (uploadButtonEnabled p st); [|exact Hinv].
    apply handleUpload_busy. exact Hinv.
  - unfold renderDisabled. destruct (Bool.eqb isDisabled (disabled st)); exact Hinv.
  - unfold onProgress. destruct (findXhr xid st); [|exact Hinv].
    destruct computable; exact Hinv.
  - unfold onLoad. destruct (findXhr xid st); [|exact Hinv].
    destruct ((status >=? 200) && (status <? 300)); apply settle_busy; discriminate.
  - unfold onError. destruct (findXhr xid st); [|exact Hinv].
    apply settle_busy; discriminate.
Qed.

Lemma clearAllEnabled_idle (st : State) :
  clearAllEnabled st = true ->
  files st <> [] /\ isUploading st = false /\ disabled st = false.
Proof.
  unfold clearAllEnabled. rewrite nonempty_length. intros H.
  apply andb_prop in H as [Hlen Hoff].
  split; [destruct (files st); [discriminate|discriminate]|].
  destruct (isUploading st); [discriminate|].
  destruct (disabled st); [discriminate|]. split; reflexivity.
Qed.

Lemma uiStep_busy (p : FileUploaderProps) (showPreview : bool) (st : State)
    (ev : UiEvent) :
  busyInv st -> busyInv (fst (uiStep p showPreview st ev)).
Proof.
  intros Hinv. destruct ev as [e|index sameObject confirmed|]; simpl.
  - pose proof (step_busy p st e Hinv) as Hstep.
    destruct (step p st e) as [st' out]. exact Hstep.
  - unfold onClickRemove.
    destruct (showPreview && negb (isUploading st) && confirmed); [|exact Hinv].
    destruct (files st !! index) as [fileToRemove|]; [|exact Hinv].
    unfold handleRemoveFile. simpl.
    destruct (validationErrors st !! File.name fileToRemove); exact Hinv.
  - unfold onClickClearAll. destruct (clearAllEnabled st) eqn:Henabled; [|exact Hinv].
    apply clearAllEnabled_idle in Henabled as (_ & Hidle & _).
    unfold busyInv, flagsAgree, clearFiles. simpl. rewrite Hidle.
    split; [split; discriminate|discriminate].
Qed.

Lemma uiRun_busy (p : FileUploaderProps) (showPreview : bool) (evs : list UiEvent) :
  forall st, busyInv st -> busyInv (fst (uiRun p showPreview st evs)).
Proof.
  induction evs as [|ev rest IH]; intros st Hinv; simpl; [exact Hinv|].
  pose proof (uiStep_busy p showPreview st ev Hinv) as Hstep.
  destruct (uiStep p showPreview st ev) as [st1 out1]. simpl in Hstep.
  specialize (IH st1 Hstep). destruct (uiRun p showPreview st1 rest) as [st2 out2].
  exact IH.
Qed.

Lemma initialState_busy (isDisabled : bool) : busyInv (initialState isDisabled).
Proof. unfold busyInv, flagsAgree. simpl. split; [split|]; discriminate. Qed.

(** X16. Throughout a session (selections, drops, clicks on the three buttons,
    prop changes and request events in any order) the busy flag and the
    status agree: [isUploading] is set exactly when [uploadStatus] is
    'uploading'. *)
Theorem busy_flag_agrees_with_status (p : FileUploaderProps) (showPreview : bool)
    (isDisabled : bool) (evs : list UiEvent) :
  let st := fst (uiRun p showPreview (initialState isDisabled) evs) in
  isUploading st = true <-> uploadStatus st = uploading.
Proof.
  exact (proj1 (uiRun_busy p showPreview evs _ (initialState_busy isDisabled))).
Qed.

(** X17. Throughout a session, whenever the component shows itself busy a
    request it has sent has neither loaded nor failed yet. *)
Theorem busy_flag_means_request_in_flight (p : FileUploaderProps) (showPreview : bool)
    (isDisabled : bool) (evs : list UiEvent) :
  let st := fst (uiRun p showPreview (initialState isDisabled) evs) in
  isUploading st = true -> pending st <> [].
Proof.
  exact (proj2 (uiRun_busy p showPreview evs _ (initialState_busy isDisabled))).
Qed.

(** X18. The converse fails by design of the 'load' and 'error' listeners: the
    completion of any one request clears the busy flag, even while
    another request sent by the component is still in flight. *)
Theorem completion_clears_busy_flag (st : State) (id : nat) (status : Z)
    (done other : Xhr) :
  findXhr id st = Some done ->
  In other (pending st) -> xhrId other <> id ->
  isUploading (fst (onLoad id status st)) = false
  /\ isUploading (fst (onError id st)) = false
  /\ In other (pending (fst (onLoad id status st)))
  /\ In other (pending (fst (onError id st))).
Proof.
  intros Hfind Hin Hother. unfold onLoad, onError. rewrite Hfind.
  assert (Hkept : In other (List.filter (fun x => negb (Nat.eqb (xhrId x) id))
                              (pending st))).
  { apply filter_In. split; [exact Hin|].
    destruct (Nat.eqb_spec (xhrId other) id); [contradiction|reflexivity]. }
  destruct ((status >=? 200) && (status <? 300)); simpl; repeat split; exact Hkept.
Qed.

(** ** The selection across a session *)

Lemma filterOthers_length {A : Type} (sameObject : nat -> bool) (l : list A) :
  forall i, (length (filterOthers sameObject i l) <= length l)%nat.
Proof.
  induction l as [|x rest IH]; intros i; simpl; [lia|].
  specialize (IH (S i)). destruct (sameObject i); simpl; lia.
Qed.

Lemma filterOthers_Forall {A : Type} (P : A -> Prop) (sameObject : nat -> bool)
    (l : list A) :
  forall i, Forall P l -> Forall P (filterOthers sameObject i l).
Proof.
  induction l as [|x rest IH]; intros i Hall; simpl; [constructor|].
  inversion Hall as [|? ? Hx Hrest]; subst.
  destruct (sameObject i); [apply IH; exact Hrest|].
  constructor; [exact Hx|apply IH; exact Hrest].
Qed.

Lemma totalSizeOf_cons (file : File) (fs : list File) :
  totalSizeOf (file :: fs) = File.size file + totalSizeOf fs.
Proof. apply (totalSizeOf_app [file] fs). Qed.

Lemma totalSizeOf_nonneg (fs : list File) : sizesNonNegative fs -> 0 <= totalSizeOf fs.
Proof.
  induction 1 as [|file rest Hfile _ IH]; [reflexivity|].
  rewrite totalSizeOf_cons. lia.
Qed.

Lemma filterOthers_totalSize (sameObject : nat -> bool) (fs : list File) :
  sizesNonNegative fs ->
  forall i, totalSizeOf (filterOthers sameObject i fs) <= totalSizeOf fs.
Proof.
  induction 1 as [|file rest Hfile _ IH]; intros i; simpl; [lia|].
  specialize (IH (S i)). rewrite totalSizeOf_cons.
  destruct (sameObject i); [lia|]. rewrite totalSizeOf_cons. lia.
Qed.

Lemma validFilesOf_nonneg (p : FileUploaderProps) (batch : list File) :
  sizesNonNegative batch -> sizesNonNegative (validFilesOf p batch).
Proof.
  unfold sizesNonNegative, validFilesOf. rewrite !List.Forall_forall.
  intros Hall file Hin. apply filter_In in Hin as [Hin _]. apply Hall. exact Hin.
Qed.

(** A selection coming from the file input keeps the selection within
    both limits. *)
Lemma onInputChange_selection (p : FileUploaderProps)
    (selectedFiles : option (list File)) (st : State) :
  multiple p = true ->
  sizesNonNegative (match selectedFiles with Some fs => fs | None => [] end) ->
  selectionInv p st -> selectionInv p (fst (onInputChange p selectedFiles st)).
Proof.
  intros Hmulti Hbatch Hinv. unfold onInputChange.
  destruct selectedFiles as [batch|]; [|exact Hinv].
  rewrite handleFileChange_shape, Hmulti.
  destruct (Z.gtb_spec (Z.of_nat (length (files st))
                        + Z.of_nat (length (validFilesOf p batch))) (maxFiles p));
    [exact Hinv|].
  destruct (Z.gtb_spec (totalSizeOf (files st) + totalSizeOf (validFilesOf p batch))
              (maxTotalSize p)); [exact Hinv|].
  unfold selectionInv.
  match goal with
  | |- context [publish p true ?v ?e ?s0] =>
      destruct (publish_fields p true v e s0) as (-> & _)
  end.
  destruct (Z.of_nat (length (validFilesOf p batch)) >? 0); [|exact Hinv].
  simpl. unfold withinLimits.
  rewrite length_app, Nat2Z.inj_add, totalSizeOf_app.
  split; [split; assumption|].
  apply Forall_app. split; [apply Hinv|apply validFilesOf_nonneg; exact Hbatch].
Qed.

Lemma step_files_unchanged (p : FileUploaderProps) (st : State) (ev : Event) :
  match ev with InputChange _ | Drop _ => False | _ => True end ->
  files (fst (step p st ev)) = files st
  /\ validationErrors (fst (step p st ev)) = validationErrors st.
Proof.
  destruct ev as [selected|dropped| |isDisabled|xid computable loaded total|xid status|xid];
    simpl; intros Hkind; try contradiction.
  - unfold onClickUpload. destruct (uploadButtonEnabled p st); [|split; reflexivity].
    apply handleUpload_files.
  - unfold renderDisabled. destruct (Bool.eqb isDisabled (disabled st)); split; reflexivity.
  - unfold onProgress. destruct (findXhr xid st); [|split; reflexivity].
    destruct computable; split; reflexivity.
  - unfold onLoad. destruct (findXhr xid st); [|split; reflexivity].
    destruct ((status >=? 200) && (status <? 300)); split; reflexivity.
  - unfold onError. destruct (findXhr xid st); split; reflexivity.
Qed.

Lemma uiStep_selection (p : FileUploaderProps) (showPreview : bool) (st : State)
    (ev : UiEvent) :
  multiple p = true -> 0 <= maxFiles p -> 0 <= maxTotalSize p ->
  isDrop ev = false -> sizesNonNegative (eventFiles ev) ->
  selectionInv p st -> selectionInv p (fst (uiStep p showPreview st ev)).
Proof.
  intros Hmulti Hfiles Htotal Hkind Hbatch Hinv.
  destruct ev as [e|index sameObject confirmed|]; simpl.
  - assert (Hcore : selectionInv p (fst (step p st e))).
    { destruct e as [selected|dropped| |isDisabled|xid computable loaded total
                     |xid status|xid];
        try discriminate;
        try (match goal with
             | |- context [step p st ?e] =>
                 destruct (step_files_unchanged p st e I) as [Hsame _];
                 unfold selectionInv; rewrite Hsame; exact Hinv
             end).
      apply (onInputChange_selection p selected st Hmulti); [|exact Hinv].
      destruct selected; [exact Hbatch|constructor]. }
    destruct (step p st e) as [st' out]. exact Hcore.
  - unfold onClickRemove.
    destruct (showPreview && negb (isUploading st) && confirmed); [|exact Hinv].
    destruct (files st !! index) as [fileToRemove|]; [|exact Hinv].
    assert (Hkept : selectionInv p (updateFiles (fun prev => filterOthers sameObject 0 prev)
                                      st)).
    { destruct Hinv as [[Hcount Hsize] Hnonneg]. unfold selectionInv, withinLimits. simpl.
      pose proof (filterOthers_length sameObject (files st) 0).
      pose proof (filterOthers_totalSize sameObject (files st) Hnonneg 0).
      split; [split; lia|]. apply filterOthers_Forall. exact Hnonneg. }
    unfold handleRemoveFile. simpl.
    destruct (validationErrors st !! File.name fileToRemove); exact Hkept.
  - unfold onClickClearAll. destruct (clearAllEnabled st); [|exact Hinv].
    unfold selectionInv, withinLimits. simpl. split; [split; assumption|constructor].
Qed.

(** Without a custom predicate no invocation ever waits. *)
Lemma startsAwait_None (p : FileUploaderProps) (st : State) (ev : UiEvent) :
  validateFile p = None -> startsAwait p st ev = None.
Proof.
  intros Hpred. unfold startsAwait, suspends. rewrite Hpred.
  destruct ev as [[[batch|]|[batch|]| | | | |]| |]; try reflexivity.
  rewrite andb_false_r. reflexivity.
Qed.

Lemma asyncRun_selection (p : FileUploaderProps) (showPreview : bool)
    (aevs : list AsyncEvent) :
  multiple p = true -> 0 <= maxFiles p -> 0 <= maxTotalSize p ->
  validateFile p = None ->
  (forall ev, In (Arrives ev) aevs -> isDrop ev = false) ->
  (forall ev, In (Arrives ev) aevs -> sizesNonNegative (eventFiles ev)) ->
  forall st, selectionInv p st ->
    selectionInv p (fst (fst (asyncRun p showPreview (st, []) aevs)))
    /\ snd (fst (asyncRun p showPreview (st, []) aevs)) = [].
Proof.
  intros Hmulti Hfiles Htotal Hpred.
  induction aevs as [|aev rest IH]; intros Hkinds Hbatches st Hinv; simpl;
    [split; [exact Hinv|reflexivity]|].
  assert (Hrest : forall st1, selectionInv p st1 ->
            selectionInv p (fst (fst (asyncRun p showPreview (st1, []) rest)))
            /\ snd (fst (asyncRun p showPreview (st1, []) rest)) = []).
  { apply IH; intros ev Hin; [apply Hkinds|apply Hbatches]; right; exact Hin. }
  destruct aev as [ev|k].
  - rewrite (startsAwait_None p st ev Hpred).
    assert (Hstep : selectionInv p (fst (uiStep p showPreview st ev))).
    { apply uiStep_selection; try assumption;
        [apply Hkinds|apply Hbatches]; left; reflexivity. }
    destruct (uiStep p showPreview st ev) as [st1 out1]. simpl in Hstep.
    specialize (Hrest st1 Hstep).
    destruct (asyncRun p showPreview (st1, []) rest) as [final out2]. exact Hrest.
  - specialize (Hrest st Hinv).
    destruct (asyncRun p showPreview (st, []) rest) as [final out2]. exact Hrest.
Qed.

(** X19. In multiple-file mode with no custom predicate, so that no
    invocation of the selection handler ever waits, and as long as every
    selection comes from the file input (no drop), the selection holds at
    most maxFiles files of at most maxTotalSize bytes in total at every
    moment of a session, through selections, removals, Clear All, uploads,
    request events and changes of the [disabled] prop (the other props
    being fixed). *)
Theorem input_sessions_stay_within_limits (p : FileUploaderProps) (showPreview : bool)
    (isDisabled : bool) (aevs : list AsyncEvent) :
  multiple p = true -> 0 <= maxFiles p -> 0 <= maxTotalSize p ->
  validateFile p = None ->
  (forall ev, In (Arrives ev) aevs -> isDrop ev = false) ->
  (forall ev, In (Arrives ev) aevs -> sizesNonNegative (eventFiles ev)) ->
  withinLimits p
    (files (fst (fst (asyncRun p showPreview (initialState isDisabled, []) aevs)))).
Proof.
  intros Hmulti Hfiles Htotal Hpred Hkinds Hbatches.
  apply (asyncRun_selection p showPreview aevs Hmulti Hfiles Htotal Hpred Hkinds Hbatches).
  unfold selectionInv, withinLimits. simpl. split; [split; assumption|constructor].
Qed.

(** ** The drop handler and the selection it remembers *)

Lemma handleFileChange_memo (p : FileUploaderProps) (captured : list File)
    (selectedFiles : option (list File)) (st : State) :
  memoFiles (fst (handleFileChange p captured selectedFiles st)) = memoFiles st
  /\ disabled (fst (handleFileChange p captured selectedFiles st)) = disabled st.
Proof.
  destruct selectedFiles as [batch|]; [|split; reflexivity].
  rewrite handleFileChange_shape.
  assert (Htail : forall merge st0,
            memoFiles (fst (publish p merge (validFilesOf p batch)
                              (fst (validateEach p batch ∅ [])) st0)) = memoFiles st0
            /\ disabled (fst (publish p merge (validFilesOf p batch)
                                (fst (validateEach p batch ∅ [])) st0)) = disabled st0).
  { intros merge st0.
    destruct (publish_fields p merge (validFilesOf p batch)
                (fst (validateEach p batch ∅ [])) st0) as (_ & Hd & Hm & _).
    split; assumption. }
  destruct (multiple p); [|exact (Htail false (setFiles (validFilesOf p batch) st))].
  destruct (Z.of_nat (length captured) + Z.of_nat (length (validFilesOf p batch))
            >? maxFiles p); [split; reflexivity|].
  destruct (totalSizeOf captured + totalSizeOf (validFilesOf p batch) >? maxTotalSize p);
    [split; reflexivity|].
  destruct (Htail true (if Z.of_nat (length (validFilesOf p batch)) >? 0
                        then updateFiles (fun prev => prev ++ validFilesOf p batch) st
                        else st)) as [-> ->].
  destruct (Z.of_nat (length (validFilesOf p batch)) >? 0); split; reflexivity.
Qed.

Lemma uiStep_memo (p : FileUploaderProps) (showPreview : bool) (st : State)
    (ev : UiEvent) :
  isRenderDisabled ev = false ->
  memoFiles (fst (uiStep p showPreview st ev)) = memoFiles st
  /\ disabled (fst (uiStep p showPreview st ev)) = disabled st.
Proof.
  intros Hkind. destruct ev as [e|index sameObject confirmed|]; simpl.
  - assert (Hcore : memoFiles (fst (step p st e)) = memoFiles st
                    /\ disabled (fst (step p st e)) = disabled st).
    { destruct e as [selected|dropped| |isDisabled|xid computable loaded total
                     |xid status|xid]; try discriminate; simpl.
      - apply handleFileChange_memo.
      - unfold handleDrop. destruct (disabled st) eqn:Hd; [split; [reflexivity|exact Hd]|].
        destruct dropped; [|split; [reflexivity|exact Hd]].
        rewrite <- Hd. apply handleFileChange_memo.
      - unfold onClickUpload, handleUpload.
        destruct (uploadButtonEnabled p st); [|split; reflexivity].
        destruct (uploadUrl p) as [url|]; [|split; reflexivity].
        destruct (negb (truthy (Some url)) || _); [|destruct (xhrOpens url)];
          split; reflexivity.
      - unfold onProgress. destruct (findXhr xid st); [|split; reflexivity].
        destruct computable; split; reflexivity.
      - unfold onLoad. destruct (findXhr xid st); [|split; reflexivity].
        destruct ((status >=? 200) && (status <? 300)); split; reflexivity.
      - unfold onError. destruct (findXhr xid st); split; reflexivity. }
    destruct (step p st e) as [st' out]. exact Hcore.
  - unfold onClickRemove.
    destruct (showPreview && negb (isUploading st) && confirmed); [|split; reflexivity].
    destruct (files st !! index) as [fileToRemove|]; [|split; reflexivity].
    unfold handleRemoveFile. simpl.
    destruct (validationErrors st !! File.name fileToRemove); split; reflexivity.
  - unfold onClickClearAll. destruct (clearAllEnabled st); split; reflexivity.
Qed.

Lemma uiRun_memo (p : FileUploaderProps) (showPreview : bool) (evs : list UiEvent) :
  forallb (fun ev => negb (isRenderDisabled ev)) evs = true ->
  forall st,
    memoFiles (fst (uiRun p showPreview st evs)) = memoFiles st
    /\ disabled (fst (uiRun p showPreview st evs)) = disabled st.
Proof.
  induction evs as [|ev rest IH]; intros Hkinds st; simpl; [split; reflexivity|].
  simpl in Hkinds. apply andb_prop in Hkinds as [Hkind Hkinds].
  assert (Hstep := uiStep_memo p showPreview st ev).
  destruct (isRenderDisabled ev); [discriminate|]. specialize (Hstep eq_refl).
  destruct (uiStep p showPreview st ev) as [st1 out1]. simpl in Hstep.
  specialize (IH Hkinds st1). destruct (uiRun p showPreview st1 rest) as [st2 out2].
  simpl in *. destruct Hstep as [Hm Hd]. destruct IH as [IHm IHd].
  split; congruence.
Qed.

(** X20. As long as the [disabled] prop has not changed since the component
    was mounted, the drop handler tests every batch against an empty
    selection: in multiple-file mode a dropped batch whose valid files
    fit the two limits on their own is appended to the selection,
    however many files are already selected. *)
Theorem drop_tests_the_batch_alone (p : FileUploaderProps) (showPreview : bool)
    (evs : list UiEvent) (batch : list File) :
  multiple p = true ->
  forallb (fun ev => negb (isRenderDisabled ev)) evs = true ->
  Z.of_nat (length (validFilesOf p batch)) <= maxFiles p ->
  totalSizeOf (validFilesOf p batch) <= maxTotalSize p ->
  let st := fst (uiRun p showPreview (initialState false) evs) in
  files (fst (step p st (Drop (Some batch)))) = files st ++ validFilesOf p batch
  /\ existsb isLimitError (snd (step p st (Drop (Some batch)))) = false.
Proof.
  intros Hmulti Hkinds Hcount Hsize st.
  destruct (uiRun_memo p showPreview evs Hkinds (initialState false)) as [Hmemo Hdis].
  fold st in Hmemo, Hdis. simpl in Hmemo, Hdis.
  simpl step. unfold handleDrop. rewrite Hdis, Hmemo.
  destruct (handleFileChange_admitted p [] batch st Hmulti) as (Hfiles & Hlimit & _);
    [simpl; lia|unfold totalSizeOf at 1; simpl; lia|].
  split; assumption.
Qed.

(** X21. The drop handler is renewed only when [disabled] changes and then
    remembers the selection of that render: after the prop went to true
    and back, and the selection was emptied with Clear All, a dropped
    batch is still counted against the files selected at that time and
    is refused with 'Maximum <maxFiles> files allowed' although nothing
    is selected. *)
Theorem drop_after_clear_counts_cleared_files (p : FileUploaderProps)
    (showPreview : bool) (st : State) (batch : list File) :
  multiple p = true ->
  disabled st = false -> isUploading st = false -> files st <> [] ->
  Z.of_nat (length (files st)) + Z.of_nat (length (validFilesOf p batch)) > maxFiles p ->
  let r := uiRun p showPreview st
             [Core (RenderDisabled true); Core (RenderDisabled false);
              ClickClearAll; Core (Drop (Some batch))] in
  files (fst r) = []
  /\ snd r = [FromCore (Toast (MaximumFilesAllowed (maxFiles p)) true);
              FromCore (OnValidationError (Text (MaximumFilesAllowed (maxFiles p))))].
Proof.
  intros Hmulti Hdis Hidle Hfiles Hcount r. subst r.
  destruct st as [fs errs progress busy status dis memo inflight next].
  simpl in Hdis, Hidle, Hfiles, Hcount. subst dis busy.
  cbn [uiRun uiStep step renderDisabled disabled Bool.eqb files validationErrors
       uploadProgress isUploading uploadStatus memoFiles pending nextXhr map app fst snd].
  unfold onClickClearAll, clearAllEnabled.
  cbn [files isUploading disabled orb negb].
  rewrite (nonempty_gtb fs Hfiles).
  assert (Hlen : (Z.of_nat (length fs) =? 0) = false).
  { destruct fs; [congruence|reflexivity]. }
  rewrite Hlen. cbn [andb negb orb].
  unfold handleDrop, clearFiles.
  cbn [disabled memoFiles setUploadProgress setUploadStatus setValidationErrors setFiles
       files validationErrors uploadProgress isUploading uploadStatus pending nextXhr].
  rewrite (handleFileChange_over_maxFiles p fs batch _ Hmulti Hcount).
  split; reflexivity.
Qed.

(** ** The Upload button *)

Lemma uploadButtonEnabled_iff (p : FileUploaderProps) (st : State) :
  uploadButtonEnabled p st = true <->
  files st <> [] /\ truthy (uploadUrl p) = true
  /\ isUploading st = false /\ disabled st = false
  /\ withinLimits p (files st).
Proof.
  unfold uploadButtonEnabled, withinLimits. rewrite !nonempty_length.
  destruct (files st) as [|file rest] eqn:Hfiles.
  - simpl. split; [discriminate|]. intros (H & _). congruence.
  - rewrite <- Hfiles.
    destruct (truthy (uploadUrl p)); [|split; [discriminate|intros (_ & H & _); discriminate]].
    destruct (isUploading st);
      [split; [discriminate|intros (_ & _ & H & _); discriminate]|].
    destruct (disabled st);
      [split; [discriminate|intros (_ & _ & _ & H & _); discriminate]|].
    destruct (Z.gtb_spec (totalSizeOf (files st)) (maxTotalSize p)) as [Hgt|Hsize];
      [split; [discriminate|intros (_ & _ & _ & _ & _ & H); lia]|].
    destruct (Z.gtb_spec (Z.of_nat (length (files st))) (maxFiles p)) as [Hgt|Hcount];
      [split; [discriminate|intros (_ & _ & _ & _ & H & _); lia]|].
    assert (Hlen : (Z.of_nat (length (files st)) =? 0) = false)
      by (rewrite Hfiles; reflexivity).
    rewrite Hlen. simpl. split; [|reflexivity]. intros _.
    rewrite Hfiles at 1. repeat split; try discriminate; assumption.
Qed.

(** X22. A request started by the Upload button carries the whole current
    selection, and it is only started when the component is neither
    disabled nor busy and the selection is non-empty and within both
    limits: a selection over maxFiles or maxTotalSize is never sent by
    the button. *)
Theorem button_uploads_selection_within_limits (p : FileUploaderProps) (st : State)
    (id : nat) (method url : string) (formData : list (string * File)) :
  In (XhrSend id method url formData) (snd (step p st ClickUpload)) ->
  formData = formDataOf (files st)
  /\ files st <> []
  /\ withinLimits p (files st)
  /\ isUploading st = false /\ disabled st = false.
Proof.
  simpl. unfold onClickUpload.
  destruct (uploadButtonEnabled p st) eqn:Henabled; [|intros []].
  apply uploadButtonEnabled_iff in Henabled as (Hne & _ & Hidle & Hdis & Hlimits).
  intros Hin. apply handleUpload_out in Hin as (u & _ & _ & [Heq|[Heq|Heq]]);
    try discriminate.
  inversion Heq; subst. repeat split; try assumption; apply Hlimits.
Qed.


(** ** Removing files and clearing *)

Lemma filterOthers_ext {A : Type} (same same' : nat -> bool) (l : list A) :
  (forall j, same j = same' j) ->
  forall i, filterOthers same i l = filterOthers same' i l.
Proof.
  intros Hext. induction l as [|x rest IH]; intros i; simpl; [reflexivity|].
  rewrite Hext, IH. reflexivity.
Qed.

Lemma filterOthers_none {A : Type} (same : nat -> bool) (l : list A) :
  forall i, (forall j, (i <= j)%nat -> same j = false) -> filterOthers same i l = l.
Proof.
  induction l as [|x rest IH]; intros i Hnone; simpl; [reflexivity|].
  rewrite (Hnone i) by lia. rewrite IH; [reflexivity|]. intros j Hj. apply Hnone. lia.
Qed.

Lemma filterOthers_delete {A : Type} (l : list A) :
  forall index start,
    filterOthers (fun j => Nat.eqb j (start + index)) start l = delete index l.
Proof.
  induction l as [|x rest IH]; intros index start; simpl; [reflexivity|].
  destruct index as [|index'].
  - rewrite Nat.add_0_r, Nat.eqb_refl. simpl.
    apply filterOthers_none. intros j Hj. apply Nat.eqb_neq. lia.
  - destruct (Nat.eqb_spec start (start + S index')); [lia|].
    simpl. f_equal.
    rewrite <- (IH index' (S start)). apply filterOthers_ext.
    intros j. f_equal. lia.
Qed.

(** X24. Removing a file whose object occurs once in the selection takes out
    exactly the entry at the clicked position, keeps the others in their
    order, and reports the removed file to onFileRemoved; the click needs
    the previews to be shown, the confirmation to be given and no upload
    to be in progress. *)
Theorem remove_takes_out_clicked_file (p : FileUploaderProps) (st : State)
    (index : nat) (sameObject : nat -> bool) (file : File) :
  isUploading st = false ->
  files st !! index = Some file ->
  (forall j, sameObject j = Nat.eqb j index) ->
  let r := uiStep p true st (ClickRemove index sameObject true) in
  files (fst r) = delete index (files st)
  /\ S (length (files (fst r))) = length (files st)
  /\ snd r = [OnFileRemoved file]
  /\ pending (fst r) = pending st /\ uploadStatus (fst r) = uploadStatus st.
Proof.
  intros Hidle Hfile Hsame r. subst r. simpl. unfold onClickRemove.
  rewrite Hidle, Hfile. simpl. unfold handleRemoveFile.
  assert (Hfiles : filterOthers sameObject 0 (files st) = delete index (files st)).
  { rewrite (filterOthers_ext sameObject (fun j => Nat.eqb j (0 + index)) _ Hsame).
    apply filterOthers_delete. }
  assert (Hlen : S (length (delete index (files st))) = length (files st)).
  { apply lookup_lt_Some in Hfile. rewrite length_delete; [lia|]. eauto using lookup_lt_is_Some_2. }
  destruct (validationErrors st !! File.name file); simpl;
    rewrite Hfiles; repeat split; exact Hlen.
Qed.

(** X25. Removing a file also deletes the reason recorded under its name and
    no other. Since only rejected files get a reason, the reason deleted
    belongs to another file, one that was rejected under the same name. *)
Theorem remove_deletes_reason_of_same_name (p : FileUploaderProps) (st : State)
    (index : nat) (sameObject : nat -> bool) (file : File) :
  isUploading st = false ->
  files st !! index = Some file ->
  let st' := fst (uiStep p true st (ClickRemove index sameObject true)) in
  validationErrors st' !! File.name file = None
  /\ forall name, name <> File.name file ->
       validationErrors st' !! name = validationErrors st !! name.
Proof.
  intros Hidle Hfile st'. subst st'. simpl. unfold onClickRemove.
  rewrite Hidle, Hfile. simpl. unfold handleRemoveFile.
  destruct (validationErrors st !! File.name file) as [reason|] eqn:Hreason; simpl.
  - split; [apply lookup_delete_eq|].
    intros name Hne. apply lookup_delete_ne. congruence.
  - split; [exact Hreason|]. reflexivity.
Qed.

(** X26. While an upload is in progress the three buttons are inert: Upload,
    Clear All and the remove button of every preview change nothing and
    call nothing. (Selecting or dropping files is not held back.) *)
Theorem buttons_are_inert_while_uploading (p : FileUploaderProps) (showPreview : bool)
    (st : State) (index : nat) (sameObject : nat -> bool) (confirmed : bool) :
  isUploading st = true ->
  uiStep p showPreview st (Core ClickUpload) = (st, [])
  /\ uiStep p showPreview st ClickClearAll = (st, [])
  /\ uiStep p showPreview st (ClickRemove index sameObject confirmed) = (st, []).
Proof.
  intros Hbusy. split; [|split]; simpl.
  - unfold onClickUpload. destruct (uploadButtonEnabled p st) eqn:Henabled; [|reflexivity].
    apply uploadButtonEnabled_iff in Henabled as (_ & _ & Hidle & _). congruence.
  - unfold onClickClearAll. destruct (clearAllEnabled st) eqn:Henabled; [|reflexivity].
    apply clearAllEnabled_idle in Henabled as (_ & Hidle & _). congruence.
  - unfold onClickRemove. rewrite Hbusy, andb_false_r. reflexivity.
Qed.

Lemma uiStep_core (p : FileUploaderProps) (showPreview : bool) (st : State) (e : Event) :
  fst (uiStep p showPreview st (Core e)) = fst (step p st e).
Proof. simpl. destruct (step p st e); reflexivity. Qed.

Lemma delete_last {A : Type} (l : list A) (x : A) : delete (length l) (l ++ [x]) = l.
Proof. induction l as [|y rest IH]; simpl; [reflexivity|]. rewrite IH. reflexivity. Qed.

(** X27. Selecting one more file and then removing it gives back the previous
    selection: in multiple-file mode without automatic upload, a valid
    file that fits the limits is appended at the end, and removing the
    entry at that position restores the list of selected files. *)
Theorem select_then_remove_restores_selection (p : FileUploaderProps) (st : State)
    (file : File) :
  multiple p = true -> autoUpload p = false -> isUploading st = false ->
  validate p file = None ->
  withinLimits p (files st ++ [file]) ->
  let added := fst (uiStep p true st (Core (InputChange (Some [file])))) in
  let last := length (files st) in
  files added = files st ++ [file]
  /\ files (fst (uiStep p true added (ClickRemove last (fun j => Nat.eqb j last) true)))
     = files st.
Proof.
  intros Hmulti Hauto Hidle Hvalid [Hcount Hsize] added last.
  assert (Hvalids : validFilesOf p [file] = [file]).
  { unfold validFilesOf, accepted. simpl. rewrite Hvalid. reflexivity. }
  rewrite length_app, Nat2Z.inj_add in Hcount. rewrite totalSizeOf_app in Hsize.
  assert (Hadded : files added = files st ++ [file] /\ isUploading added = isUploading st).
  { subst added. rewrite uiStep_core.
    change (step p st (InputChange (Some [file])))
      with (handleFileChange p (files st) (Some [file]) st).
    rewrite handleFileChange_shape, Hmulti, Hvalids.
    destruct (Z.gtb_spec (Z.of_nat (length (files st)) + Z.of_nat (length [file]))
                (maxFiles p)); [simpl in *; lia|].
    destruct (Z.gtb_spec (totalSizeOf (files st) + totalSizeOf [file]) (maxTotalSize p));
      [lia|].
    generalize (fst (validateEach p [file] ∅ [])). intros errs.
    unfold publish, maybeUpload. rewrite Hauto. simpl.
    destruct (Z.of_nat (length (Object_keys errs)) >? 0); split; reflexivity. }
  destruct Hadded as [Hfiles Hbusy]. split; [exact Hfiles|].
  simpl. unfold onClickRemove. rewrite Hbusy, Hidle, Hfiles. simpl.
  assert (Hlookup : (files st ++ [file]) !! last = Some file).
  { subst last. rewrite lookup_app_r by lia. rewrite Nat.sub_diag. reflexivity. }
  rewrite Hlookup. unfold handleRemoveFile.
  assert (Hback : filterOthers (fun j => Nat.eqb j last) 0 (files added) = files st).
  { rewrite Hfiles.
    rewrite (filterOthers_ext _ (fun j => Nat.eqb j (0 + last)) _ (fun j => eq_refl)).
    rewrite filterOthers_delete. apply delete_last. }
  destruct (validationErrors added !! File.name file); simpl; exact Hback.
Qed.

(** X28. Clear All, when it is enabled, empties the selection and the recorded
    reasons and resets the status to 'idle' and the progress to 0; it does
    not touch the requests in flight, and afterwards the three buttons are
    inert until files are selected again. *)
Theorem clear_all_resets_and_disarms (p : FileUploaderProps) (showPreview : bool)
    (st : State) (index : nat) (sameObject : nat -> bool) (confirmed : bool) :
  clearAllEnabled st = true ->
  let st' := fst (uiStep p showPreview st ClickClearAll) in
  files st' = [] /\ validationErrors st' = ∅
  /\ uploadStatus st' = idle /\ uploadProgress st' = Zero
  /\ pending st' = pending st
  /\ uiStep p showPreview st' (Core ClickUpload) = (st', [])
  /\ uiStep p showPreview st' ClickClearAll = (st', [])
  /\ uiStep p showPreview st' (ClickRemove index sameObject confirmed) = (st', []).
Proof.
  intros Henabled st'. subst st'. simpl. unfold onClickClearAll. rewrite Henabled.
  simpl. repeat split.
  - unfold onClickRemove. simpl.
    destruct (showPreview && negb (isUploading st) && confirmed); reflexivity.
Qed.

(** ** Previews *)

(** X29. A file that is not an image is shown as an icon as soon as the effect
    has run, the PDF icon exactly for the type application/pdf, whatever
    the preview cells held before (such as the data URL of an image shown
    earlier by the same preview). *)
Theorem non_image_preview_is_an_icon (file : File) (s : FilePreview.PreviewState) :
  FilePreview.isImage file = false ->
  FilePreview.view file (FilePreview.effect file s)
  = (if FilePreview.isPdf file then FilePreview.PdfIcon else FilePreview.FileIcon)
  /\ (File.type file = "application/pdf" ->
      FilePreview.view file (FilePreview.effect file s) = FilePreview.PdfIcon).
Proof.
  intros Himage. unfold FilePreview.view, FilePreview.effect. rewrite Himage. simpl.
  split; [reflexivity|]. intros Hpdf. unfold FilePreview.isPdf. rewrite Hpdf. reflexivity.
Qed.

(** For an image the preview shows the placeholder from the effect until
    the reader answers; a loaded data URL is then displayed, a reader
    error or a later image error replaces it by the error text. *)
Lemma image_preview_lifecycle (file : File) (s : FilePreview.PreviewState)
    (result : string) :
  FilePreview.isImage file = true -> result <> "" ->
  let started := FilePreview.effect file s in
  FilePreview.view file started = FilePreview.Skeleton
  /\ FilePreview.view file (FilePreview.readerLoad result started)
     = FilePreview.Image result
  /\ FilePreview.view file (FilePreview.readerError started) = FilePreview.ErrorText
  /\ FilePreview.view file (FilePreview.imgError (FilePreview.readerLoad result started))
     = FilePreview.ErrorText.
Proof.
  intros Himage Hresult started. subst started.
  unfold FilePreview.view, FilePreview.effect. rewrite Himage. simpl.
  destruct (String.eqb_spec result ""); [contradiction|]. repeat split.
Qed.

End Component.

(** * Worked examples

    The closed statements below evaluate the component on [sampleHost]:
    every file name in them is ASCII, and ['http://'] is the one URL that
    [xhr.open] refuses. *)

#[global] Existing Instance sampleHost.

Example fileExtension_ex :
  fileExtension (File.mk "Photo.JPG" 10 "image/jpeg") = ".jpg"
  /\ fileExtension (File.mk "README" 10 "") = ".readme"
  /\ fileExtension (File.mk "a." 10 "") = ".".
Proof. repeat split; reflexivity. Qed.

Lemma validate_checks_in_order_witness :
  File.size (File.mk "huge.jpg" 11 "image/jpeg") > maxFileSize imagesOnly
  /\ validate imagesOnly (File.mk "huge.jpg" 11 "image/jpeg")
     = Some (FileExceedsMaximumSize 10).
Proof.
  split; [reflexivity|].
  apply (proj2 (validate_checks_in_order imagesOnly (File.mk "huge.jpg" 11 "image/jpeg"))).
  reflexivity.
Defined.

(** C6, as stated, fails: a file whose extension is outside a non-empty
    allowedTypes but whose size exceeds maxFileSize is rejected with the
    size-exceeded reason, not with the type-not-allowed one. *)
Lemma extension_rejection_counterexample :
  allowedTypes imagesOnly <> []
  /\ includes (allowedTypes imagesOnly)
       (fileExtension (File.mk "setup.exe" 20 "image/jpeg")) = false
  /\ includes (allowedMimeTypes imagesOnly) "image/jpeg" = true
  /\ validate imagesOnly (File.mk "setup.exe" 20 "image/jpeg")
     <> Some (FileTypeNotAllowed (fileExtension (File.mk "setup.exe" 20 "image/jpeg")))
  /\ validate imagesOnly (File.mk "setup.exe" 20 "image/jpeg")
     = Some (FileExceedsMaximumSize 10).
Proof. repeat split; try reflexivity; discriminate. Qed.

Lemma extension_outside_allowedTypes_rejected_witness :
  allowedTypes imagesOnly <> []
  /\ File.size (File.mk "setup.EXE" 5 "image/jpeg") <= maxFileSize imagesOnly
  /\ includes (allowedTypes imagesOnly)
       (fileExtension (File.mk "setup.EXE" 5 "image/jpeg")) = false
  /\ validate imagesOnly (File.mk "setup.EXE" 5 "image/jpeg")
     = Some (FileTypeNotAllowed ".exe").
Proof.
  assert (H1 : allowedTypes imagesOnly <> []) by discriminate.
  assert (H2 : File.size (File.mk "setup.EXE" 5 "image/jpeg") <= maxFileSize imagesOnly)
    by (simpl; lia).
  assert (H3 : includes (allowedTypes imagesOnly)
                 (fileExtension (File.mk "setup.EXE" 5 "image/jpeg")) = false)
    by reflexivity.
  split; [exact H1|]. split; [exact H2|]. split; [exact H3|].
  exact (extension_outside_allowedTypes_rejected imagesOnly _ H1 H2 H3).
Defined.

(** Membership is tested on the extension with its leading dot, the way
    allowedTypes is written (['.jpg', '.png']). *)
Example extension_membership_includes_dot :
  fileExtension (File.mk "photo.JPG" 5 "image/jpeg") = ".jpg"
  /\ validate imagesOnly (File.mk "photo.JPG" 5 "image/jpeg") = None
  /\ validate (withLimits imagesOnly 1 100) (File.mk "jpg" 5 "image/jpeg") = None.
Proof. repeat split; reflexivity. Qed.

(** C1, what the code does on two successive drops. With maxFiles = 2
    and maxTotalSize = 1500, after [fileA; fileB] were dropped and
    admitted, dropping the individually valid [fileC] would take the
    count to 3 and the total to 1600. The memoised drop handler still
    sees the empty selection of the first render, so the batch is
    admitted and no limit error is raised; the same batch coming from
    the file input is refused with the state unchanged. *)
Theorem drop_admits_batch_over_limits :
  let p := exampleLimits true in
  let st1 := fst (step p (initialState false) (Drop (Some [fileA; fileB]))) in
  let dropped := step p st1 (Drop (Some [fileC])) in
  let picked := step p st1 (InputChange (Some [fileC])) in
  files st1 = [fileA; fileB]
  /\ validFilesOf p [fileC] = [fileC]
  /\ Z.of_nat (length (files st1 ++ [fileC])) > maxFiles p
  /\ totalSizeOf (files st1 ++ [fileC]) > maxTotalSize p
  /\ files (fst dropped) = [fileA; fileB; fileC]
  /\ existsb isLimitError (snd dropped) = false
  /\ snd dropped = [OnFileSelected [fileC]]
  /\ files (fst picked) = [fileA; fileB]
  /\ snd picked = [Toast (MaximumFilesAllowed 2) true;
                   OnValidationError (Text (MaximumFilesAllowed 2))].
Proof. vm_compute. repeat split; reflexivity. Qed.

(** C2, as stated, fails in single-file mode. With maxFiles = 2 and
    maxTotalSize = 1500, dropping three valid files of 600, 600 and 400
    bytes is a successful add (onFileSelected is called) that leaves 3
    files and 1600 bytes in the selection. With maxFileSize = 1000 and
    maxTotalSize = 500, picking the single valid file of 600 bytes in
    the file dialog leaves 600 bytes in the selection. *)
Lemma single_mode_add_exceeds_limits :
  let p := exampleLimits false in
  let r := step p (initialState false) (Drop (Some [fileA; fileB; fileC])) in
  let q := withLimits (exampleLimits false) 2 500 in
  let r' := step q (initialState false) (InputChange (Some [fileA])) in
  multiple p = false
  /\ snd r = [OnFileSelected [fileA; fileB; fileC]]
  /\ files (fst r) = [fileA; fileB; fileC]
  /\ Z.of_nat (length (files (fst r))) > maxFiles p
  /\ totalSizeOf (files (fst r)) > maxTotalSize p
  /\ multiple q = false
  /\ snd r' = [OnFileSelected [fileA]]
  /\ files (fst r') = [fileA]
  /\ totalSizeOf (files (fst r')) > maxTotalSize q.
Proof. vm_compute. repeat split; reflexivity. Qed.

Lemma multiple_mode_add_respects_limits_witness :
  let p := exampleLimits true in
  let st := initialState false in
  let st' := fst (handleFileChange p (files st) (Some [fileA; fileB]) st) in
  multiple p = true
  /\ files st' <> files st
  /\ Z.of_nat (length (files st')) <= maxFiles p
  /\ totalSizeOf (files st') <= maxTotalSize p.
Proof.
  assert (H1 : multiple (exampleLimits true) = true) by reflexivity.
  assert (H2 : files (fst (handleFileChange (exampleLimits true)
                             (files (initialState false)) (Some [fileA; fileB])
                             (initialState false)))
               <> files (initialState false)) by (vm_compute; discriminate).
  split; [exact H1|]. split; [exact H2|].
  exact (proj1 (multiple_mode_add_respects_limits (exampleLimits true)
                  (files (initialState false)) (Some [fileA; fileB])
                  (initialState false)) H1 eq_refl H2).
Defined.

Lemma single_mode_selection_replaced_witness :
  let p := withLimits (exampleLimits false) 0 100 in
  let st := fst (step p (initialState false) (InputChange (Some [fileA]))) in
  multiple p = false
  /\ validFilesOf p [fileB] = [fileB]
  /\ files st = [fileA]
  /\ files (fst (handleFileChange p (files st) (Some [fileB]) st)) = [fileB].
Proof.
  assert (H1 : multiple (withLimits (exampleLimits false) 0 100) = false) by reflexivity.
  assert (H2 : validFilesOf (withLimits (exampleLimits false) 0 100) [fileB] = [fileB])
    by reflexivity.
  split; [exact H1|]. split; [exact H2|]. split; [reflexivity|].
  exact (proj1 (single_mode_selection_replaced
                  (withLimits (exampleLimits false) 0 100) _ [fileB] _ fileB H1 H2)).
Defined.

Lemma single_mode_takes_all_valid_files_witness :
  let p := exampleLimits false in
  let st := fst (step p (initialState false) (InputChange (Some [fileA]))) in
  let tooLarge := File.mk "movie.mp4" 2000 "video/mp4" in
  multiple p = false
  /\ files st = [fileA]
  /\ validFilesOf p [tooLarge] = []
  /\ files (fst (handleFileChange p (files st) (Some [tooLarge]) st)) = [].
Proof.
  assert (H1 : multiple (exampleLimits false) = false) by reflexivity.
  split; [exact H1|]. split; [reflexivity|]. split; [reflexivity|].
  refine (proj1 (proj2 (single_mode_takes_all_valid_files (exampleLimits false)
                          _ [File.mk "movie.mp4" 2000 "video/mp4"] _ H1)) _).
  reflexivity.
Defined.

(** Several valid files dropped in single-file mode are all selected. *)
Example single_mode_drop_of_two :
  files (fst (step (exampleLimits false) (initialState false)
                (Drop (Some [fileA; fileB]))))
  = [fileA; fileB].
Proof. reflexivity. Qed.

(** C7, what the code does when a limit refuses the batch. With
    maxFileSize = 10 and maxFiles = 1, the batch [huge.jpg (11 bytes);
    a.jpg; b.png] is validated to the end: huge.jpg is rejected for its
    size and the two others are valid. The count check then returns
    early, so the reason attached to huge.jpg reaches neither
    [validationErrors] nor [onValidationError]; only the limit error is
    raised. With maxFiles = 5 the same batch surfaces the reason. *)
Theorem limit_rejection_drops_file_reasons :
  let batch := [File.mk "huge.jpg" 11 "image/jpeg"; File.mk "a.jpg" 5 "image/jpeg";
                File.mk "b.png" 4 "image/png"] in
  let refused := step imagesOnly (initialState false) (InputChange (Some batch)) in
  let admitted := step (withLimits imagesOnly 5 100) (initialState false)
                    (InputChange (Some batch)) in
  rejectionOf imagesOnly batch "huge.jpg" = Some (FileExceedsMaximumSize 10)
  /\ validFilesOf imagesOnly batch
     = [File.mk "a.jpg" 5 "image/jpeg"; File.mk "b.png" 4 "image/png"]
  /\ validationErrors (fst refused) !! "huge.jpg" = None
  /\ snd refused = [Toast (MaximumFilesAllowed 1) true;
                    OnValidationError (Text (MaximumFilesAllowed 1))]
  /\ validationErrors (fst admitted) !! "huge.jpg" = Some (FileExceedsMaximumSize 10)
  /\ snd admitted
     = [OnFileSelected [File.mk "a.jpg" 5 "image/jpeg"; File.mk "b.png" 4 "image/png"];
        OnValidationError (JoinedValues {[ "huge.jpg" := FileExceedsMaximumSize 10 ]})].
Proof. vm_compute. repeat split; reflexivity. Qed.



(** C8, what the code does when files are selected during an upload.
    With autoUpload and multiple set, selecting [fileA] starts request 0;
    a progress event of it is recorded; selecting [fileB] while
    [uploadStatus] is 'uploading' then sends request 1 although request 0
    has neither loaded nor failed, and resets [uploadProgress]. *)
Theorem auto_upload_starts_second_request :
  let p := autoUploading in
  let busy := fst (run p (initialState false)
                     [InputChange (Some [fileA]); XhrProgress 0 true 300 600]) in
  let again := step p busy (InputChange (Some [fileB])) in
  uploadStatus busy = uploading
  /\ isUploading busy = true
  /\ map xhrId (pending busy) = [0%nat]
  /\ uploadProgress busy = MathRound 300 600
  /\ snd again = [OnFileSelected [fileB];
                  XhrSend 1 "POST" "/api/upload" [("files", fileB)]]
  /\ map xhrId (pending (fst again)) = [0%nat; 1%nat]
  /\ uploadProgress (fst again) = Zero.
Proof. vm_compute. repeat split; reflexivity. Qed.

Lemma mime_outside_allowedMimeTypes_rejected_witness :
  let file := File.mk "notes.jpg" 5 "text/plain" in
  allowedMimeTypes imagesOnly <> []
  /\ File.size file <= maxFileSize imagesOnly
  /\ includes (allowedTypes imagesOnly) (fileExtension file) = true
  /\ includes (allowedMimeTypes imagesOnly) (File.type file) = false
  /\ validate imagesOnly file = Some (FileTypeNotAllowed "text/plain").
Proof.
  assert (H1 : allowedMimeTypes imagesOnly <> []) by discriminate.
  assert (H2 : File.size (File.mk "notes.jpg" 5 "text/plain") <= maxFileSize imagesOnly)
    by (simpl; lia).
  assert (H3 : includes (allowedTypes imagesOnly)
                 (fileExtension (File.mk "notes.jpg" 5 "text/plain")) = true)
    by reflexivity.
  assert (H4 : includes (allowedMimeTypes imagesOnly)
                 (File.type (File.mk "notes.jpg" 5 "text/plain")) = false)
    by reflexivity.
  split; [exact H1|]. split; [exact H2|]. split; [exact H3|]. split; [exact H4|].
  exact (mime_outside_allowedMimeTypes_rejected imagesOnly _ H1 H2 (or_intror H3) H4).
Defined.

Lemma fileExtension_ignores_case_witness :
  dotFree "JPG" = true /\ dotFree "jpg" = true
  /\ toLowerCase "JPG" = toLowerCase "jpg"
  /\ fileExtension (File.mk "PHOTO.JPG" 5 "image/jpeg") = ".jpg"
  /\ fileExtension (File.mk "PHOTO.JPG" 5 "image/jpeg")
     = fileExtension (File.mk "holiday.jpg" 7 "image/jpeg").
Proof.
  assert (H1 : dotFree "JPG" = true) by reflexivity.
  assert (H2 : dotFree "jpg" = true) by reflexivity.
  assert (H3 : toLowerCase "JPG" = toLowerCase "jpg") by reflexivity.
  split; [exact H1|]. split; [exact H2|]. split; [exact H3|]. split; [reflexivity|].
  exact (fileExtension_ignores_case "PHOTO" "JPG" "holiday" "jpg" 5 7
           "image/jpeg" "image/jpeg" H1 H2 H3).
Defined.

Lemma dotless_allowedTypes_reject_all_witness :
  let p := {| multiple := false; maxFileSize := 1000; maxTotalSize := 1500;
              maxFiles := 2; allowedTypes := ["png"; "jpg"];
              allowedMimeTypes := []; validateFile := None;
              uploadUrl := None; autoUpload := false |} in
  let file := File.mk "photo.png" 5 "image/png" in
  allowedTypes p <> []
  /\ File.size file <= maxFileSize p
  /\ validate p file = Some (FileTypeNotAllowed ".png").
Proof.
  set (p := {| multiple := false; maxFileSize := 1000; maxTotalSize := 1500;
               maxFiles := 2; allowedTypes := ["png"; "jpg"];
               allowedMimeTypes := []; validateFile := None;
               uploadUrl := None; autoUpload := false |}).
  assert (H1 : allowedTypes p <> []) by discriminate.
  assert (H2 : forall entry, In entry (allowedTypes p) -> startsWithDot entry = false).
  { intros entry [<-|[<-|[]]]; reflexivity. }
  assert (H3 : File.size (File.mk "photo.png" 5 "image/png") <= maxFileSize p)
    by (simpl; lia).
  split; [exact H1|]. split; [exact H3|].
  exact (proj2 (dotless_allowedTypes_reject_all p (File.mk "photo.png" 5 "image/png")
                  H1 H2 H3)).
Defined.

Lemma dotless_name_is_its_extension_witness :
  let p := {| multiple := false; maxFileSize := 1000; maxTotalSize := 1500;
              maxFiles := 2; allowedTypes := [".jpg"];
              allowedMimeTypes := []; validateFile := None;
              uploadUrl := None; autoUpload := false |} in
  dotFree "JPG" = true
  /\ allowedTypes p <> [] /\ allowedMimeTypes p = [] /\ validateFile p = None
  /\ 5 <= maxFileSize p
  /\ validate p (File.mk "JPG" 5 "text/plain") = None.
Proof.
  set (p := {| multiple := false; maxFileSize := 1000; maxTotalSize := 1500;
               maxFiles := 2; allowedTypes := [".jpg"];
               allowedMimeTypes := []; validateFile := None;
               uploadUrl := None; autoUpload := false |}).
  assert (H1 : dotFree "JPG" = true) by reflexivity.
  assert (H2 : allowedTypes p <> []) by discriminate.
  assert (H3 : allowedMimeTypes p = []) by reflexivity.
  assert (H4 : validateFile p = None) by reflexivity.
  assert (H5 : 5 <= maxFileSize p) by (simpl; lia).
  split; [exact H1|]. split; [exact H2|]. split; [exact H3|]. split; [exact H4|].
  split; [exact H5|].
  exact (dotless_name_is_its_extension p "JPG" 5 "text/plain" H1 H2 H3 H4 H5).
Defined.

Lemma later_rejection_overwrites_witness :
  let first := File.mk "scan.jpg" 11 "image/jpeg" in
  let second := File.mk "scan.jpg" 5 "text/plain" in
  validate imagesOnly second = Some (FileTypeNotAllowed "text/plain")
  /\ storable (File.name second) = true
  /\ validate imagesOnly first = Some (FileExceedsMaximumSize 10)
  /\ fst (validateEach imagesOnly ([first] ++ second :: []) ∅ []) !! "scan.jpg"
     = Some (FileTypeNotAllowed "text/plain").
Proof.
  assert (H1 : validate imagesOnly (File.mk "scan.jpg" 5 "text/plain")
               = Some (FileTypeNotAllowed "text/plain")) by reflexivity.
  assert (H2 : storable (File.name (File.mk "scan.jpg" 5 "text/plain")) = true)
    by reflexivity.
  split; [exact H1|]. split; [exact H2|]. split; [reflexivity|].
  refine (later_rejection_overwrites imagesOnly [File.mk "scan.jpg" 11 "image/jpeg"] []
            (File.mk "scan.jpg" 5 "text/plain") _ H1 H2 _).
  intros later [].
Defined.

Lemma onFileSelected_gets_valid_files_witness :
  let p := exampleLimits true in
  let tooLarge := File.mk "movie.mp4" 2000 "video/mp4" in
  let r := handleFileChange p [] (Some [fileA; tooLarge; fileB]) (initialState false) in
  In (OnFileSelected [fileA; fileB]) (snd r)
  /\ [fileA; fileB] = validFilesOf p [fileA; tooLarge; fileB]
  /\ files (fst r) = [fileA; fileB].
Proof.
  assert (H : In (OnFileSelected [fileA; fileB])
                (snd (handleFileChange (exampleLimits true) []
                        (Some [fileA; File.mk "movie.mp4" 2000 "video/mp4"; fileB])
                        (initialState false)))) by (vm_compute; left; reflexivity).
  split; [exact H|].
  destruct (onFileSelected_gets_valid_files (exampleLimits true) []
              [fileA; File.mk "movie.mp4" 2000 "video/mp4"; fileB]
              (initialState false) [fileA; fileB] H) as (Hvalid & _ & Hfiles).
  split; [exact Hvalid|exact Hfiles].
Defined.

Lemma selection_without_autoUpload_sends_nothing_witness :
  autoUpload (exampleLimits true) = false
  /\ requestsOf (snd (handleFileChange (exampleLimits true) [] (Some [fileA; fileB])
                        (initialState false))) = [].
Proof.
  assert (H : autoUpload (exampleLimits true) = false) by reflexivity.
  split; [exact H|].
  exact (selection_without_autoUpload_sends_nothing (exampleLimits true) []
           (Some [fileA; fileB]) (initialState false) (or_introl H)).
Defined.

Lemma autoUpload_sends_the_new_files_witness :
  let p := autoUploading in
  let st := fst (step p (initialState false) (InputChange (Some [fileA]))) in
  autoUpload p = true /\ uploadUrl p = Some "/api/upload" /\ "/api/upload" <> ""
  /\ validFilesOf p [fileB] <> []
  /\ files st = [fileA]
  /\ requestsOf (snd (handleFileChange p (files st) (Some [fileB]) st))
     = [XhrSend 1 "POST" "/api/upload" [("files", fileB)]].
Proof.
  assert (H1 : autoUpload autoUploading = true) by reflexivity.
  assert (H2 : uploadUrl autoUploading = Some "/api/upload") by reflexivity.
  assert (H3 : "/api/upload" <> "") by discriminate.
  assert (H4 : validFilesOf autoUploading [fileB] <> []) by discriminate.
  split; [exact H1|]. split; [exact H2|]. split; [exact H3|]. split; [exact H4|].
  split; [reflexivity|].
  refine (autoUpload_sends_the_new_files autoUploading _ [fileB] _ "/api/upload"
            H1 H2 H3 H4 _).
  intros _. vm_compute. split; discriminate.
Defined.

Lemma rejection_named_proto_is_silent_witness :
  let p := exampleLimits false in
  let hidden := File.mk "__proto__" 2000 "text/plain" in
  let r := handleFileChange p [] (Some [hidden]) (initialState false) in
  accepted p hidden = false
  /\ validationErrors (fst r) = ∅
  /\ snd r = []
  /\ files (fst r) = [].
Proof.
  split; [reflexivity|].
  assert (H : forall file, In file [File.mk "__proto__" 2000 "text/plain"] ->
                accepted (exampleLimits false) file = false ->
                File.name file = "__proto__").
  { intros file [<-|[]] _. reflexivity. }
  split; [|split; vm_compute; reflexivity].
  exact (proj1 (rejection_named_proto_is_silent (exampleLimits false) []
                  [File.mk "__proto__" 2000 "text/plain"] (initialState false) H)).
Defined.

Lemma multiple_mode_reasons_accumulate_witness :
  let p := exampleLimits true in
  let tooLarge := File.mk "movie.mp4" 2000 "video/mp4" in
  let st := fst (step p (initialState false) (InputChange (Some [tooLarge]))) in
  multiple p = true
  /\ is_Some (validationErrors st !! "movie.mp4")
  /\ is_Some (validationErrors (fst (handleFileChange p (files st) (Some [fileA]) st))
               !! "movie.mp4").
Proof.
  assert (H1 : multiple (exampleLimits true) = true) by reflexivity.
  assert (H2 : is_Some (validationErrors
                          (fst (step (exampleLimits true) (initialState false)
                                  (InputChange
                                     (Some [File.mk "movie.mp4" 2000 "video/mp4"]))))
                        !! "movie.mp4")) by (vm_compute; eauto).
  split; [exact H1|]. split; [exact H2|].
  exact (multiple_mode_reasons_accumulate (exampleLimits true) _ (Some [fileA]) _
           "movie.mp4" H1 H2).
Defined.


Lemma multiple_mode_all_rejected_keeps_selection_witness :
  let p := exampleLimits true in
  let tooLarge := File.mk "movie.mp4" 2000 "video/mp4" in
  let st := fst (step p (initialState false) (InputChange (Some [fileA]))) in
  multiple p = true
  /\ validFilesOf p [tooLarge] = []
  /\ files st = [fileA]
  /\ files (fst (handleFileChange p (files st) (Some [tooLarge]) st)) = [fileA].
Proof.
  assert (H1 : multiple (exampleLimits true) = true) by reflexivity.
  assert (H2 : validFilesOf (exampleLimits true) [File.mk "movie.mp4" 2000 "video/mp4"]
               = []) by reflexivity.
  split; [exact H1|]. split; [exact H2|]. split; [reflexivity|].
  exact (proj1 (multiple_mode_all_rejected_keeps_selection (exampleLimits true) _
                  [File.mk "movie.mp4" 2000 "video/mp4"] _ H1 H2)).
Defined.

Lemma busy_flag_means_request_in_flight_witness :
  let st := fst (uiRun autoUploading true (initialState false)
                   [Core (InputChange (Some [fileA]))]) in
  isUploading st = true /\ pending st <> [].
Proof.
  assert (H : isUploading (fst (uiRun autoUploading true (initialState false)
                                  [Core (InputChange (Some [fileA]))])) = true)
    by (vm_compute; reflexivity).
  split; [exact H|].
  exact (busy_flag_means_request_in_flight autoUploading true false
           [Core (InputChange (Some [fileA]))] H).
Defined.

Lemma completion_clears_busy_flag_witness :
  let st := fst (run autoUploading (initialState false)
                   [InputChange (Some [fileA]); InputChange (Some [fileB])]) in
  let done := {| xhrId := 0; filesToUpload := [fileA] |} in
  let other := {| xhrId := 1; filesToUpload := [fileB] |} in
  findXhr 0 st = Some done /\ In other (pending st) /\ xhrId other <> 0%nat
  /\ isUploading (fst (onLoad 0 200 st)) = false
  /\ In other (pending (fst (onLoad 0 200 st))).
Proof.
  set (st := fst (run autoUploading (initialState false)
                    [InputChange (Some [fileA]); InputChange (Some [fileB])])).
  assert (H1 : findXhr 0 st = Some {| xhrId := 0; filesToUpload := [fileA] |})
    by (vm_compute; reflexivity).
  assert (H2 : In {| xhrId := 1; filesToUpload := [fileB] |} (pending st))
    by (vm_compute; right; left; reflexivity).
  assert (H3 : xhrId {| xhrId := 1; filesToUpload := [fileB] |} <> 0%nat)
    by (simpl; discriminate).
  split; [exact H1|]. split; [exact H2|]. split; [exact H3|].
  destruct (completion_clears_busy_flag st 0 200 _ _ H1 H2 H3) as (Hbusy & _ & Hin & _).
  split; [exact Hbusy|exact Hin].
Defined.

Lemma input_sessions_stay_within_limits_witness :
  let p := exampleLimits true in
  let aevs := [Arrives (Core (InputChange (Some [fileA; fileB])));
               Arrives (Core (InputChange (Some [fileC])));
               Arrives (ClickRemove 0 (Nat.eqb 0) true);
               Arrives (Core (InputChange (Some [fileC])))] in
  multiple p = true /\ 0 <= maxFiles p /\ 0 <= maxTotalSize p
  /\ validateFile p = None
  /\ files (fst (fst (asyncRun p true (initialState false, []) aevs))) = [fileB; fileC]
  /\ withinLimits p (files (fst (fst (asyncRun p true (initialState false, []) aevs)))).
Proof.
  set (p := exampleLimits true).
  set (aevs := [Arrives (Core (InputChange (Some [fileA; fileB])));
                Arrives (Core (InputChange (Some [fileC])));
                Arrives (ClickRemove 0 (Nat.eqb 0) true);
                Arrives (Core (InputChange (Some [fileC])))]).
  assert (H1 : multiple p = true) by reflexivity.
  assert (H2 : 0 <= maxFiles p) by (simpl; lia).
  assert (H3 : 0 <= maxTotalSize p) by (simpl; lia).
  assert (H4 : validateFile p = None) by reflexivity.
  assert (H5 : forall ev, In (Arrives ev) aevs -> isDrop ev = false).
  { intros ev [[= <-]|[[= <-]|[[= <-]|[[= <-]|[]]]]]; reflexivity. }
  assert (H6 : forall ev, In (Arrives ev) aevs -> sizesNonNegative (eventFiles ev)).
  { unfold sizesNonNegative.
    intros ev [[= <-]|[[= <-]|[[= <-]|[[= <-]|[]]]]]; repeat constructor; simpl; lia. }
  split; [exact H1|]. split; [exact H2|]. split; [exact H3|]. split; [exact H4|].
  split; [vm_compute; reflexivity|].
  exact (input_sessions_stay_within_limits p true false aevs H1 H2 H3 H4 H5 H6).
Defined.

(** With a custom predicate the change handler waits in its loop, and two
    selections validated at the same time are both tested against the
    selection captured when they arrived: each fits the limits of 2 files
    and 1500 bytes on its own, and together they leave 3 files of 1600
    bytes. *)
Example overlapping_changes_exceed_limits :
  let p := withCustomCheck in
  let final := fst (asyncRun p true (initialState false, [])
                      [Arrives (Core (InputChange (Some [fileA; fileB])));
                       Arrives (Core (InputChange (Some [fileC])));
                       Resumes 0; Resumes 0]) in
  maxFiles p = 2 /\ maxTotalSize p = 1500
  /\ files (fst final) = [fileA; fileB; fileC]
  /\ totalSizeOf (files (fst final)) = 1600
  /\ snd final = [].
Proof. vm_compute. repeat split; reflexivity. Qed.

Lemma drop_tests_the_batch_alone_witness :
  let p := exampleLimits true in
  let evs := [Core (InputChange (Some [fileA; fileB]))] in
  let st := fst (uiRun p true (initialState false) evs) in
  multiple p = true
  /\ Z.of_nat (length (validFilesOf p [fileC])) <= maxFiles p
  /\ totalSizeOf (validFilesOf p [fileC]) <= maxTotalSize p
  /\ files st = [fileA; fileB]
  /\ files (fst (step p st (Drop (Some [fileC])))) = [fileA; fileB; fileC].
Proof.
  set (p := exampleLimits true).
  assert (H1 : multiple p = true) by reflexivity.
  assert (H2 : forallb (fun ev => negb (isRenderDisabled ev))
                 [Core (InputChange (Some [fileA; fileB]))] = true) by reflexivity.
  assert (H3 : Z.of_nat (length (validFilesOf p [fileC])) <= maxFiles p)
    by (vm_compute; discriminate).
  assert (H4 : totalSizeOf (validFilesOf p [fileC]) <= maxTotalSize p)
    by (vm_compute; discriminate).
  split; [exact H1|]. split; [exact H3|]. split; [exact H4|]. split; [reflexivity|].
  exact (proj1 (drop_tests_the_batch_alone p true
                  [Core (InputChange (Some [fileA; fileB]))] [fileC] H1 H2 H3 H4)).
Defined.

Lemma drop_after_clear_counts_cleared_files_witness :
  let p := exampleLimits true in
  let st := fst (step p (initialState false) (InputChange (Some [fileA; fileB]))) in
  multiple p = true /\ disabled st = false /\ isUploading st = false
  /\ files st <> []
  /\ Z.of_nat (length (files st)) + Z.of_nat (length (validFilesOf p [fileC]))
     > maxFiles p
  /\ files (fst (uiRun p true st
                   [Core (RenderDisabled true); Core (RenderDisabled false);
                    ClickClearAll; Core (Drop (Some [fileC]))])) = [].
Proof.
  set (p := exampleLimits true).
  set (st := fst (step p (initialState false) (InputChange (Some [fileA; fileB])))).
  assert (H1 : multiple p = true) by reflexivity.
  assert (H2 : disabled st = false) by reflexivity.
  assert (H3 : isUploading st = false) by reflexivity.
  assert (H4 : files st <> []) by (vm_compute; discriminate).
  assert (H5 : Z.of_nat (length (files st)) + Z.of_nat (length (validFilesOf p [fileC]))
               > maxFiles p) by (vm_compute; reflexivity).
  split; [exact H1|]. split; [exact H2|]. split; [exact H3|]. split; [exact H4|].
  split; [exact H5|].
  exact (proj1 (drop_after_clear_counts_cleared_files p true st [fileC] H1 H2 H3 H4 H5)).
Defined.

Lemma button_uploads_selection_within_limits_witness :
  let p := exampleLimits true in
  let st := fst (step p (initialState false) (InputChange (Some [fileA; fileB]))) in
  In (XhrSend 0 "POST" "/api/upload" [("files", fileA); ("files", fileB)])
     (snd (step p st ClickUpload))
  /\ withinLimits p (files st).
Proof.
  set (p := exampleLimits true).
  set (st := fst (step p (initialState false) (InputChange (Some [fileA; fileB])))).
  assert (H : In (XhrSend 0 "POST" "/api/upload" [("files", fileA); ("files", fileB)])
                (snd (step p st ClickUpload))) by (vm_compute; left; reflexivity).
  split; [exact H|].
  exact (proj1 (proj2 (proj2 (button_uploads_selection_within_limits p st _ _ _ _ H)))).
Defined.


Lemma remove_takes_out_clicked_file_witness :
  let p := exampleLimits true in
  let st := fst (step p (initialState false) (InputChange (Some [fileA; fileB]))) in
  isUploading st = false
  /\ files st !! 0%nat = Some fileA
  /\ files (fst (uiStep p true st (ClickRemove 0 (fun j => Nat.eqb j 0) true)))
     = [fileB].
Proof.
  set (p := exampleLimits true).
  set (st := fst (step p (initialState false) (InputChange (Some [fileA; fileB])))).
  assert (H1 : isUploading st = false) by reflexivity.
  assert (H2 : files st !! 0%nat = Some fileA) by reflexivity.
  split; [exact H1|]. split; [exact H2|].
  exact (proj1 (remove_takes_out_clicked_file p st 0 (fun j => Nat.eqb j 0) fileA
                  H1 H2 (fun j => eq_refl))).
Defined.

Lemma remove_deletes_reason_of_same_name_witness :
  let accepted := File.mk "scan.jpg" 5 "image/jpeg" in
  let refused := File.mk "scan.jpg" 11 "image/jpeg" in
  let st := fst (step (withLimits imagesOnly 5 100) (initialState false)
                   (InputChange (Some [accepted; refused]))) in
  isUploading st = false
  /\ files st !! 0%nat = Some accepted
  /\ validationErrors st !! "scan.jpg" = Some (FileExceedsMaximumSize 10)
  /\ validationErrors
       (fst (uiStep (withLimits imagesOnly 5 100) true st
               (ClickRemove 0 (fun j => Nat.eqb j 0) true))) !! "scan.jpg" = None.
Proof.
  set (p := withLimits imagesOnly 5 100).
  set (st := fst (step p (initialState false)
                    (InputChange (Some [File.mk "scan.jpg" 5 "image/jpeg";
                                        File.mk "scan.jpg" 11 "image/jpeg"])))).
  assert (H1 : isUploading st = false) by reflexivity.
  assert (H2 : files st !! 0%nat = Some (File.mk "scan.jpg" 5 "image/jpeg"))
    by reflexivity.
  split; [exact H1|]. split; [exact H2|]. split; [vm_compute; reflexivity|].
  exact (proj1 (remove_deletes_reason_of_same_name p st 0 (fun j => Nat.eqb j 0) _
                  H1 H2)).
Defined.

Lemma buttons_are_inert_while_uploading_witness :
  let st := fst (step autoUploading (initialState false) (InputChange (Some [fileA]))) in
  isUploading st = true
  /\ uiStep autoUploading true st ClickClearAll = (st, []).
Proof.
  set (st := fst (step autoUploading (initialState false) (InputChange (Some [fileA])))).
  assert (H : isUploading st = true) by reflexivity.
  split; [exact H|].
  exact (proj1 (proj2 (buttons_are_inert_while_uploading autoUploading true st 0
                         (fun _ => false) true H))).
Defined.

Lemma select_then_remove_restores_selection_witness :
  let p := exampleLimits true in
  let st := fst (step p (initialState false) (InputChange (Some [fileA]))) in
  let added := fst (uiStep p true st (Core (InputChange (Some [fileB])))) in
  multiple p = true /\ autoUpload p = false /\ isUploading st = false
  /\ validate p fileB = None
  /\ withinLimits p (files st ++ [fileB])
  /\ files added = [fileA; fileB]
  /\ files (fst (uiStep p true added (ClickRemove 1 (fun j => Nat.eqb j 1) true)))
     = [fileA].
Proof.
  set (p := exampleLimits true).
  set (st := fst (step p (initialState false) (InputChange (Some [fileA])))).
  assert (H1 : multiple p = true) by reflexivity.
  assert (H2 : autoUpload p = false) by reflexivity.
  assert (H3 : isUploading st = false) by reflexivity.
  assert (H4 : validate p fileB = None) by reflexivity.
  assert (H5 : withinLimits p (files st ++ [fileB])).
  { split; vm_compute; discriminate. }
  split; [exact H1|]. split; [exact H2|]. split; [exact H3|]. split; [exact H4|].
  split; [exact H5|].
  exact (select_then_remove_restores_selection p st fileB H1 H2 H3 H4 H5).
Defined.

Lemma clear_all_resets_and_disarms_witness :
  let p := exampleLimits true in
  let st := fst (step p (initialState false) (InputChange (Some [fileA; fileB]))) in
  clearAllEnabled st = true
  /\ files (fst (uiStep p true st ClickClearAll)) = [].
Proof.
  set (p := exampleLimits true).
  set (st := fst (step p (initialState false) (InputChange (Some [fileA; fileB])))).
  assert (H : clearAllEnabled st = true) by (vm_compute; reflexivity).
  split; [exact H|].
  exact (proj1 (clear_all_resets_and_disarms p true st 0 (fun _ => false) true H)).
Defined.

Lemma non_image_preview_is_an_icon_witness :
  let file := File.mk "report.pdf" 5 "application/pdf" in
  let stale := FilePreview.readerLoad "data:image/png;base64,AAAA" FilePreview.mounted in
  FilePreview.isImage file = false
  /\ FilePreview.view file (FilePreview.effect file stale) = FilePreview.PdfIcon.
Proof.
  assert (H : FilePreview.isImage (File.mk "report.pdf" 5 "application/pdf") = false)
    by reflexivity.
  split; [exact H|].
  exact (proj2 (non_image_preview_is_an_icon (File.mk "report.pdf" 5 "application/pdf")
                  (FilePreview.readerLoad "data:image/png;base64,AAAA" FilePreview.mounted)
                  H) eq_refl).
Defined.

Lemma image_preview_lifecycle_witness :
  let file := File.mk "photo.png" 5 "image/png" in
  FilePreview.isImage file = true /\ "data:image/png;base64,AAAA" <> ""
  /\ FilePreview.view file
       (FilePreview.readerLoad "data:image/png;base64,AAAA"
          (FilePreview.effect file FilePreview.mounted))
     = FilePreview.Image "data:image/png;base64,AAAA".
Proof.
  assert (H1 : FilePreview.isImage (File.mk "photo.png" 5 "image/png") = true)
    by reflexivity.
  assert (H2 : "data:image/png;base64,AAAA" <> "") by discriminate.
  split; [exact H1|]. split; [exact H2|].
  exact (proj1 (proj2 (image_preview_lifecycle (File.mk "photo.png" 5 "image/png")
                         FilePreview.mounted "data:image/png;base64,AAAA" H1 H2))).
Defined.

